(** * detect.py: the detection-result processing pipeline

    A shallow embedding of [src/detect.py]: [get_coco_names],
    [overlay_boxes] and [main].  Python exceptions are an error type,
    the file system, the console and the operator's screen are an explicit
    state, floating-point numbers are exact rationals, and text produced
    by the [%] operator keeps its numeric conversions symbolic.  A Python
    [str] is a [string] whose characters are its code points, taken below
    256. *)

From Stdlib Require Import QArith Qround Qabs Lqa Ascii String Sorted.
From stdpp Require Import base list strings gmap.

Local Open Scope string_scope.
Local Open Scope list_scope.
Local Open Scope Z_scope.

(** ** Exceptions and results *)

Inductive exn : Type :=
  | NameError (name : string)
  | TypeError (msg : string)
  | IndexError (msg : string)
  | UnboundLocalError (name : string).

Inductive result (A : Type) : Type :=
  | Ok (a : A)
  | Raise (e : exn).
Arguments Ok {A} a.
Arguments Raise {A} e.

Definition is_ok {A} (r : result A) : bool :=
  match r with Ok _ => true | Raise _ => false end.

(** ** pathlib: pure POSIX paths

    [Path(s)] splits [s] at ['/'], drops empty and ['.'] components and
    keeps the root: ['/'] for a leading slash, ['//'] for exactly two. *)

Record PurePath : Type := mkPath { root : string; parts : list string }.

Definition root_of (s : string) : string :=
  match s with
  | String c1 r1 =>
      if Ascii.eqb c1 "/"%char then
        match r1 with
        | String c2 r2 =>
            if Ascii.eqb c2 "/"%char then
              match r2 with
              | String c3 _ => if Ascii.eqb c3 "/"%char then "/" else "//"
              | EmptyString => "//"
              end
            else "/"
        | EmptyString => "/"
        end
      else ""
  | EmptyString => ""
  end.

Fixpoint components (s : string) : list string :=
  match s with
  | EmptyString => [EmptyString]
  | String c r =>
      if Ascii.eqb c "/"%char then EmptyString :: components r
      else match components r with
           | [] => [String c EmptyString]
           | h :: t => String c h :: t
           end
  end.

Definition keep_component (c : string) : bool :=
  negb (String.eqb c "" || String.eqb c ".").

Definition Path (s : string) : PurePath :=
  {| root := root_of s;
     parts := filter (fun c => keep_component c = true) (components s) |}.

(** [p.name]: the final component, ['' ] when there is none. *)
Definition path_name (p : PurePath) : string := List.last (parts p) "".

(** Splits a name at its last ['.']. *)
Fixpoint rsplit_dot (s : string) : option (string * string) :=
  match s with
  | EmptyString => None
  | String c r =>
      match rsplit_dot r with
      | Some (a, b) => Some (String c a, b)
      | None => if Ascii.eqb c "."%char then Some (EmptyString, r) else None
      end
  end.

(** [p.stem]: the name without its last suffix; a leading or a trailing
    dot does not start a suffix ([0 < i < len(name) - 1]). *)
Definition stem_of (name : string) : string :=
  match rsplit_dot name with
  | Some (a, b) =>
      if String.eqb a "" || String.eqb b "" then name else a
  | None => name
  end.

Definition path_stem (p : PurePath) : string := stem_of (path_name p).

(** [p.joinpath(s)] for a string [s]: a rooted argument replaces [p]. *)
Definition joinpath (p : PurePath) (s : string) : PurePath :=
  let q := Path s in
  if String.eqb (root q) "" then {| root := root p; parts := parts p ++ parts q |}
  else q.

Fixpoint join_slash (l : list string) : string :=
  match l with
  | [] => ""
  | [x] => x
  | x :: r => x +:+ "/" +:+ join_slash r
  end.

(** [str(p)]. *)
Definition path_str (p : PurePath) : string :=
  if String.eqb (root p) "" then
    match parts p with
    | [] => "."
    | l => join_slash l
    end
  else root p +:+ join_slash (parts p).

(** ** Numbers, boxes and predictions *)

(** [torch.round]: to the nearest integer, ties to the even one. *)
Definition round_half_even (q : Q) : Z :=
  let f := Qfloor q in
  match Qcompare (q - inject_Z f) (1 # 2) with
  | Lt => f
  | Gt => f + 1
  | Eq => if Z.even f then f else f + 1
  end.

(** A row of the [boxes] tensor, corner form. *)
Record Box : Type := mkBox { xmin : Q; ymin : Q; xmax : Q; ymax : Q }.

(** The four values [box_xyxy_to_cxcywh(xyxy).tolist()] unpacks to. *)
Record CBox : Type := mkCBox { cx : Q; cy : Q; bw : Q; bh : Q }.

Definition round_box (b : Box) : Box :=
  {| xmin := inject_Z (round_half_even (xmin b));
     ymin := inject_Z (round_half_even (ymin b));
     xmax := inject_Z (round_half_even (xmax b));
     ymax := inject_Z (round_half_even (ymax b)) |}.

(** One element of [detections]: the dict with exactly the keys ['boxes'],
    ['scores'] and ['labels'] the detector returns for one image.  In
    [option Pred], [None] is a prediction the guard of line 36 skips. *)
Record Pred : Type := mkPred {
  boxes : list Box;
  scores : list Q;
  labels : list Z
}.

(** [len(pred)]: the number of keys of the dict. *)
Definition pred_len (p : Pred) : nat := 3.

(** [zip(boxes, scores, labels)] stops at the shortest argument. *)
Fixpoint zip3 (bs : list Box) (ss : list Q) (ls : list Z) : list (Box * Q * Z) :=
  match bs, ss, ls with
  | b :: bs', s :: ss', l :: ls' => (b, s, l) :: zip3 bs' ss' ls'
  | _, _, _ => []
  end.

(** [l[i]] on a Python list: negative indices count from the end. *)
Definition py_index {A : Type} (l : list A) (i : Z) : result A :=
  let n := Z.of_nat (length l) in
  let j := if i <? 0 then i + n else i in
  if (0 <=? j) && (j <? n) then
    match l !! Z.to_nat j with
    | Some x => Ok x
    | None => Raise (IndexError "list index out of range")
    end
  else Raise (IndexError "list index out of range").

(** [torch.Tensor.unique()] (sorted=True by default): the distinct values
    in ascending order. *)
Fixpoint insert_sorted (x : Z) (l : list Z) : list Z :=
  match l with
  | [] => [x]
  | y :: r =>
      if x <? y then x :: l
      else if x =? y then l
      else y :: insert_sorted x r
  end.

Definition unique (l : list Z) : list Z := foldr insert_sorted [] l.

(** [(labels == c).sum()]. *)
Definition count_label (c : Z) (l : list Z) : nat :=
  length (filter (fun x => x = c) l).

(** ** Run configuration: the [args] namespace *)

Record Args : Type := mkArgs {
  image_source : string;
  coco_category_path : string;
  output_dir : string;
  save_txt : bool;
  save_img : bool;
  view_img : bool;
  webcam : bool;
  mode : string;
  names : list string;
  colors : list (list Z)
}.

Definition set_webcam (b : bool) (a : Args) : Args :=
  mkArgs (image_source a) (coco_category_path a) (output_dir a) (save_txt a)
         (save_img a) (view_img a) b (mode a) (names a) (colors a).
Definition set_mode (m : string) (a : Args) : Args :=
  mkArgs (image_source a) (coco_category_path a) (output_dir a) (save_txt a)
         (save_img a) (view_img a) (webcam a) m (names a) (colors a).
Definition set_names (l : list string) (a : Args) : Args :=
  mkArgs (image_source a) (coco_category_path a) (output_dir a) (save_txt a)
         (save_img a) (view_img a) (webcam a) (mode a) l (colors a).
Definition set_colors (l : list (list Z)) (a : Args) : Args :=
  mkArgs (image_source a) (coco_category_path a) (output_dir a) (save_txt a)
         (save_img a) (view_img a) (webcam a) (mode a) (names a) l.

(** ** Text built by the [%] operator

    ['%g' % x], ['%.2f' % x] and ['%.3f' % x] render a float; the rendering
    is Python's and is kept symbolic: a text is a sequence of literal
    strings, of numeric conversions and of the [repr] of the namespace. *)

Inductive conv : Type := PctG | Pct2f | Pct3f.

Inductive piece : Type :=
  | Lit (s : string)
  | Num (c : conv) (q : Q)
  | Repr (a : Args).

Definition text : Type := list piece.

Definition of_nat (n : nat) : Q := inject_Z (Z.of_nat n).

(** Number of newline characters of a string and of a line-oriented text
    (a numeric conversion renders no newline; [Repr] is only printed). *)
Fixpoint count_nl (s : string) : nat :=
  match s with
  | EmptyString => 0%nat
  | String c r =>
      ((if Ascii.eqb c "010"%char then 1 else 0) + count_nl r)%nat
  end.

Definition piece_nl (p : piece) : nat :=
  match p with Lit s => count_nl s | _ => 0%nat end.

Fixpoint text_nl (t : text) : nat :=
  match t with
  | [] => 0%nat
  | p :: r => (piece_nl p + text_nl r)%nat
  end.

(** ** Images, files and the state of the run *)

(** What one [plot_one_box] call leaves on the raster. *)
Record overlay : Type := mkOverlay {
  o_box : Box;
  o_label : text;
  o_color : list Z;
  o_thickness : Z
}.

(** A frame: its first two dimensions ([img.shape[:2]]), the pixels it was
    decoded with (an opaque identifier) and the overlays drawn on it since. *)
Record image : Type := mkImage {
  shape : nat * nat;
  pixels : nat;
  overlays : list overlay
}.

Inductive blob : Type :=
  | TextData (t : text)
  | ImageData (im : image).

(** [fs]: the files under their path strings, each the sequence of what
    was written to it.  [stdout]: the printed lines.  [shown] and
    [key_polls]: the frames displayed in a window and the keyboard polls
    ([cv2.imshow], [cv2.waitKey]); no statement of detect.py touches them.
    [img]: the raster object the parameter [img] of [overlay_boxes] refers
    to, mutated in place by [plot_one_box]. *)
Record state : Type := mkState {
  fs : gmap string (list blob);
  stdout : list text;
  shown : list image;
  key_polls : nat;
  img : image
}.

Definition set_fs (f : gmap string (list blob)) (s : state) : state :=
  mkState f (stdout s) (shown s) (key_polls s) (img s).
Definition set_stdout (o : list text) (s : state) : state :=
  mkState (fs s) o (shown s) (key_polls s) (img s).
Definition set_img (im : image) (s : state) : state :=
  mkState (fs s) (stdout s) (shown s) (key_polls s) im.

(** Lines of a file: the newlines of its text writes. *)
Definition blob_nl (b : blob) : nat :=
  match b with TextData t => text_nl t | ImageData _ => 0%nat end.

Fixpoint line_count (f : list blob) : nat :=
  match f with
  | [] => 0%nat
  | b :: r => (blob_nl b + line_count r)%nat
  end.

Definition file_at (s : state) (p : string) : list blob :=
  default [] (fs s !! p).

(** ** The state and exception monad *)

Definition M (A : Type) : Type := state -> state * result A.

Definition ret {A : Type} (a : A) : M A := fun s => (s, Ok a).

Definition raise {A : Type} (e : exn) : M A := fun s => (s, Raise e).

Definition lift {A : Type} (r : result A) : M A := fun s => (s, r).

Definition bind {A B : Type} (m : M A) (k : A -> M B) : M B :=
  fun s =>
    match m s with
    | (s', Ok a) => k a s'
    | (s', Raise e) => (s', Raise e)
    end.

Notation "'do' x <- m ; k" := (bind m (fun x => k))
  (at level 10, x name, m at level 100, k at level 200).
Notation "'do_' m ; k" := (bind m (fun _ => k))
  (at level 10, m at level 100, k at level 200).

(** The raster [img] refers to. *)
Definition get_img : M image := fun s => (s, Ok (img s)).

(** [print(t)]. *)
Definition print (t : text) : M unit :=
  fun s => (set_stdout (stdout s ++ [t]) s, Ok tt).

(** [with open(p, 'a') as f: f.write(t)], in a directory that exists (the
    entry point creates the output directory, lines 152-153). *)
Definition append_write (p : string) (t : text) : M unit :=
  fun s => (set_fs (<[p := file_at s p ++ [TextData t]]> (fs s)) s, Ok tt).

(** [cv2.imwrite(p, img)] for a path cv2 has an encoder for (an image
    extension), in a directory that exists: the file is replaced by the
    encoded raster. *)
Definition imwrite (p : string) : M unit :=
  fun s => (set_fs (<[p := [ImageData (img s)]]> (fs s)) s, Ok tt).

(** [cv2.imshow(name, img)] and [cv2.waitKey(1)], the display calls of the
    library imported at line 5: a frame put on the screen, a poll of the
    keyboard.  No statement of detect.py calls them. *)
Definition imshow : M unit :=
  fun s => (mkState (fs s) (stdout s) (shown s ++ [img s]) (key_polls s) (img s),
            Ok tt).

Definition waitKey : M unit :=
  fun s => (mkState (fs s) (stdout s) (shown s) (S (key_polls s)) (img s),
            Ok tt).

(** The contract of spec 4.4 for view_img, in the spec's words: display the
    annotated frame and check the interactive quit signal, every frame. *)
Definition spec_view_step (args : Args) : M unit :=
  if view_img args then do_ imshow; waitKey else ret tt.

(** Modelled from the spec: [plot_one_box] is in utils/general.py, which is
    not under src/.  Spec 4.3: it draws a rectangle at the box with a fixed
    line thickness, in the given color, with the text label, and mutates
    the frame in place. *)
Definition plot_one_box (xyxy : Box) (label : text) (color : list Z)
    (line_thickness : Z) : M unit :=
  fun s =>
    let im := img s in
    (set_img (mkImage (shape im) (pixels im)
                (overlays im ++ [mkOverlay xyxy label color line_thickness])) s,
     Ok tt).

(** Modelled from the spec: [box_xyxy_to_cxcywh] is in utils/general.py,
    which is not under src/.  Glossary: the center form (cx,cy,w,h) of a
    corner-form box; the call at line 49 passes the box alone.  Used only
    to run the pipeline on concrete inputs: the development below is
    parametric in the helper. *)
Definition center_form (b : Box) : CBox :=
  {| cx := Qred ((xmin b + xmax b) / 2);
     cy := Qred ((ymin b + ymax b) / 2);
     bw := Qred (xmax b - xmin b);
     bh := Qred (ymax b - ymin b) |}.

(** The contract of spec 4.1, in the spec's words: the normalized center
    form of a box on a frame of width [W] and height [H]. *)
Definition spec_normalize (b : Box) (W H : Q) : CBox :=
  {| cx := (xmin b + xmax b) / 2 / W;
     cy := (ymin b + ymax b) / 2 / H;
     bw := (xmax b - xmin b) / W;
     bh := (ymax b - ymin b) / H |}.

(** Equality of the four values as rationals. *)
Definition cbox_eq (a b : CBox) : Prop :=
  cx a == cx b /\ cy a == cy b /\ bw a == bw b /\ bh a == bh b.

(** The order of spec 4.2, in the spec's words: the distinct labels in the
    order they are first encountered. *)
Fixpoint first_encounter (l : list Z) : list Z :=
  match l with
  | [] => []
  | x :: r => x :: filter (fun y => y <> x) (first_encounter r)
  end.

(** ** get_coco_names (lines 19-24) *)

(** [str.isspace] of one character: the code points below 256 that
    [str.strip()] removes are 9-13, 28-31, 32, 133 and 160. *)
Definition is_space (c : ascii) : bool :=
  let n := nat_of_ascii c in
  (Nat.eqb n 32 || (Nat.leb 9 n && Nat.leb n 13)
   || (Nat.leb 28 n && Nat.leb n 31) || Nat.eqb n 133 || Nat.eqb n 160)%bool.

Fixpoint lstrip (s : string) : string :=
  match s with
  | EmptyString => EmptyString
  | String c r => if is_space c then lstrip r else s
  end.

Fixpoint rstrip (s : string) : string :=
  match s with
  | EmptyString => EmptyString
  | String c r =>
      match rstrip r with
      | EmptyString => if is_space c then EmptyString else String c EmptyString
      | r' => String c r'
      end
  end.

Definition strip (s : string) : string := rstrip (lstrip s).

(** [open(category_path, 'r')]: text mode with universal newlines.  A
    carriage return followed by a line feed, and a carriage return alone,
    are read as one line feed. *)
Fixpoint universal_newlines (s : string) : string :=
  match s with
  | EmptyString => EmptyString
  | String c r =>
      if Ascii.eqb c "013"%char then
        match r with
        | String d _ =>
            if Ascii.eqb d "010"%char then universal_newlines r
            else String "010"%char (universal_newlines r)
        | EmptyString => String "010"%char EmptyString
        end
      else String c (universal_newlines r)
  end.

(** [for line in f]: the lines of the text read, each with its line feed. *)
Fixpoint file_lines (s : string) : list string :=
  match s with
  | EmptyString => []
  | String c r =>
      if Ascii.eqb c "010"%char then String c EmptyString :: file_lines r
      else match file_lines r with
           | [] => [String c EmptyString]
           | h :: t => String c h :: t
           end
  end.

(** [get_coco_names], on the characters of the file at [category_path]
    as decoded, before the translation of line ends. *)
Definition get_coco_names (contents : string) : list string :=
  map strip (file_lines (universal_newlines contents)).

(** ** overlay_boxes (lines 27-64) *)

Section Pipeline.

(** [box_xyxy_to_cxcywh] of utils/general.py, which is not under src/: any
    function of the box it is called with. *)
Variable box_xyxy_to_cxcywh : Box -> CBox.

(** Lines 41-43: the class summary appended to [s]. *)
Fixpoint summary_loop (cs : list Z) (lbls : list Z) (nms : list string)
    (s : text) : result text :=
  match cs with
  | [] => Ok s
  | c :: r =>
      let n := count_label c lbls in
      match py_index nms c with
      | Ok nm =>
          summary_loop r lbls nms
            (s ++ [Num PctG (of_nat n); Lit " "; Lit nm; Lit "s, "])
      | Raise e => Raise e
      end
  end.

(** Line 51: [('%g ' * 5 + '\n') % (cls_name, *xywh)]. *)
Definition label_line (cls_name : Z) (xywh : CBox) : text :=
  [Num PctG (inject_Z cls_name); Lit " ";
   Num PctG (cx xywh); Lit " ";
   Num PctG (cy xywh); Lit " ";
   Num PctG (bw xywh); Lit " ";
   Num PctG (bh xywh); Lit " ";
   Lit (String "010"%char EmptyString)].

(** What line 51 writes for the detection [d]. *)
Definition line_of (d : Box * Q * Z) : blob :=
  TextData (label_line (snd d) (box_xyxy_to_cxcywh (fst (fst d)))).

(** [f'{txt_path}.txt'] and [str(save_path)] (lines 32, 33, 50, 62). *)
Definition txt_file (args : Args) (path : string) : string :=
  path_str (joinpath (Path (output_dir args)) (path_stem (Path path))) +:+ ".txt".

Definition save_file (args : Args) (path : string) : string :=
  path_str (joinpath (Path (output_dir args)) (path_name (Path path))).

(** Lines 47-55: what is done for one detection. *)
Definition write_one (d : Box * Q * Z) (path : string) (args : Args) : M unit :=
  let '(xyxy, conf, cls_name) := d in
  do_ (if save_txt args then
         let xywh := box_xyxy_to_cxcywh xyxy in
         append_write (txt_file args path) (label_line cls_name xywh)
       else ret tt);
  if save_img args || view_img args then
    do nm <- lift (py_index (names args) cls_name);
    let label := [Lit nm; Lit " "; Num Pct2f conf] in
    do color <- lift (py_index (colors args) cls_name);
    plot_one_box xyxy label color 3
  else ret tt.

(** Lines 46-55. *)
Fixpoint write_loop (dets : list (Box * Q * Z)) (path : string) (args : Args)
    : M unit :=
  match dets with
  | [] => ret tt
  | d :: r => do_ write_one d path args; write_loop r path args
  end.

(** The function's locals [boxes], [scores], [labels]: unbound until line
    38 runs. *)
Definition locals : Type := option (list Box * list Q * list Z).

(** Lines 31 and 34: the start of the print string. *)
Definition frame_header (i : nat) (args : Args) (im : image) : text :=
  (if webcam args then [Num PctG (of_nat i); Lit ": "] else [])
  ++ [Num PctG (of_nat (fst (shape im))); Lit "x";
      Num PctG (of_nat (snd (shape im))); Lit " "].

(** Lines 36-55: the summary and the outputs of the detections; gives the
    print string and the locals back. *)
Definition frame_detections (pred : option Pred) (path : string) (args : Args)
    (s : text) (loc : locals) : M (text * locals) :=
  match pred with
  | Some p =>
      if Nat.ltb 0 (pred_len p) then
        let bs := map round_box (boxes p) in
        do s' <- lift (summary_loop (unique (labels p)) (labels p)
                         (names args) s);
        do_ write_loop (zip3 bs (scores p) (labels p)) path args;
        ret (s', Some (bs, scores p, labels p))
      else ret (s, loc)
  | None => ret (s, loc)
  end.

(** Line 58: ['%sDone. (%.3fs)' % (s, time_consume)]. *)
Definition done_line (s : text) (time_consume : Q) : text :=
  s ++ [Lit "Done. ("; Num Pct3f time_consume; Lit "s)"].

(** Lines 57-62: the timing line and the image output. *)
Definition frame_tail (s : text) (time_consume : Q) (path : string)
    (args : Args) : M unit :=
  do_ print (done_line s time_consume);
  if save_img args && String.eqb (mode args) "images"
  then imwrite (save_file args path) else ret tt.

(** Lines 31-62: the body of the loop over [detections]. *)
Definition frame_body (i : nat) (pred : option Pred) (path : string)
    (time_consume : Q) (args : Args) (loc : locals) : M locals :=
  do im <- get_img;
  do r <- frame_detections pred path args (frame_header i args im) loc;
  do_ frame_tail (fst r) time_consume path args;
  ret (snd r).

(** Line 30: the loop over [enumerate(detections)]. *)
Fixpoint detections_loop (i : nat) (detections : list (option Pred))
    (path : string) (time_consume : Q) (args : Args) (loc : locals) : M locals :=
  match detections with
  | [] => ret loc
  | pred :: r =>
      do loc' <- frame_body i pred path time_consume args loc;
      detections_loop (S i) r path time_consume args loc'
  end.

(** [overlay_boxes(detections, path, img, time_consume, args)]; [img] is
    the raster of the state.  Line 64 reads the locals bound at line 38. *)
Definition overlay_boxes (detections : list (option Pred)) (path : string)
    (time_consume : Q) (args : Args) : M (list Box * list Q * list Z) :=
  do loc <- detections_loop 0 detections path time_consume args None;
  match loc with
  | Some r => ret r
  | None => raise (UnboundLocalError "boxes")
  end.

(** ** main (lines 67-113) *)

(** One tuple of the frame source: [(path, img, im0s, vid_cap)]. *)
Record Frame : Type := mkFrame {
  f_path : string;
  f_img : image;
  f_im0s : image;
  f_vid_cap : option nat
}.

(** What the collaborators of [main] hand back: the frame source
    [LoadImages(...)] with its mode, the contents of the class-name file,
    the successive draws of [random.randint(0, 255)] and the two readings
    of [time.time()]. *)
Record Externals : Type := mkExternals {
  ds_mode : string;
  ds_frames : list Frame;
  category_file : string;
  randint : nat -> Z;
  clock_start : Q;
  clock_end : Q
}.

(** Values passed in the calls of the loop body. *)
Inductive pyval : Type :=
  | VNone
  | VModel
  | VBool (b : bool)
  | VFloat (q : Q)
  | VStr (s : string)
  | VImage (im : image)
  | VDetections (d : list (option Pred))
  | VArgs (a : Args)
  | VBoxes (l : list Box)
  | VFloats (l : list Q)
  | VInts (l : list Z)
  | VPair (a b : pyval)
  | VTriple (a b c : pyval).

(** A function object: its positional parameters and its body on the
    bound arguments. *)
Record pyfunc : Type := mkFunc {
  params : list string;
  body : list pyval -> M pyval
}.

(** What a module-level name is bound to: a function defined with [def],
    or something this model does not call. *)
Inductive pyobj : Type :=
  | Callable (f : pyfunc)
  | Opaque.

Definition globals : Type := list (string * pyobj).

Fixpoint lookup_name (g : globals) (n : string) : result pyobj :=
  match g with
  | [] => Raise (NameError n)
  | (k, o) :: r => if String.eqb k n then Ok o else lookup_name r n
  end.

(** A call with positional arguments only: as many as parameters. *)
Definition call (o : pyobj) (actuals : list pyval) : M pyval :=
  match o with
  | Callable f =>
      if Nat.eqb (length (params f)) (length actuals) then body f actuals
      else raise (TypeError "wrong number of positional arguments")
  | Opaque => raise (TypeError "object is not callable")
  end.

(** [overlay_boxes] as a function object (line 28). *)
Definition overlay_boxes_def : pyfunc :=
  {| params := ["detections"; "path"; "img"; "time_consume"; "args"];
     body := fun actuals =>
       match actuals with
       | [VDetections d; VStr path; VImage im; VFloat t; VArgs a] =>
           do_ (fun st => (set_img im st, Ok tt));
           do r <- overlay_boxes d path t a;
           ret (VTriple (VBoxes (fst (fst r))) (VFloats (snd (fst r))) (VInts (snd r)))
       | _ => raise (TypeError "unsupported operand")
       end |}.

(** The names bound at module level: the imports of lines 1-16 and the
    three [def]s; then the builtins the module uses. *)
Definition module_globals : globals :=
  [("time", Opaque); ("Path", Opaque); ("random", Opaque); ("cv2", Opaque);
   ("torch", Opaque); ("LoadImages", Opaque); ("check_img_size", Opaque);
   ("box_xyxy_to_cxcywh", Opaque); ("plot_one_box", Opaque);
   ("set_logging", Opaque); ("yolov5", Opaque);
   ("get_coco_names", Opaque);
   ("overlay_boxes", Callable overlay_boxes_def);
   ("main", Opaque);
   ("print", Opaque); ("enumerate", Opaque); ("len", Opaque); ("zip", Opaque);
   ("int", Opaque); ("open", Opaque); ("str", Opaque); ("range", Opaque)].

(** [model_out, time_consume = ...]: unpacking a pair. *)
Definition unpack2 (v : pyval) : M (pyval * pyval) :=
  match v with
  | VPair a b => ret (a, b)
  | _ => raise (TypeError "cannot unpack")
  end.

(** Lines 104-108: the body of the per-frame loop, under the globals [g]. *)
Definition loop_body (g : globals) (args : Args) (fr : Frame) : M unit :=
  let img1 := f_img fr in
  do inference <- lift (lookup_name g "inference");
  do out <- call inference [VModel; VImage img1; VBool false];
  do mt <- unpack2 out;
  do ob <- lift (lookup_name g "overlay_boxes");
  do_ call ob [fst mt; VStr (f_path fr); VImage img1; VImage (f_im0s fr);
               snd mt; VArgs args];
  ret tt.

(** Line 103: [for path, img, im0s, vid_cap in dataset]. *)
Fixpoint main_loop (g : globals) (args : Args) (frames : list Frame) : M unit :=
  match frames with
  | [] => ret tt
  | fr :: r => do_ loop_body g args fr; main_loop g args r
  end.

(** Lines 76-77.  [str.isnumeric]: the string is not empty and each of its
    characters is numeric; below 256 those are the digits 48-57 and the
    code points 178, 179, 185, 188, 189 and 190. *)
Definition is_numeric_char (c : ascii) : bool :=
  let n := nat_of_ascii c in
  ((Nat.leb 48 n && Nat.leb n 57) || Nat.eqb n 178 || Nat.eqb n 179
   || Nat.eqb n 185 || (Nat.leb 188 n && Nat.leb n 190))%bool.

Fixpoint all_numeric (s : string) : bool :=
  match s with
  | EmptyString => true
  | String c r => (is_numeric_char c && all_numeric r)%bool
  end.

Definition isnumeric (s : string) : bool :=
  (negb (String.eqb s "") && all_numeric s)%bool.

Definition startswith (s p : string) : bool := String.prefix p s.

Definition endswith (s p : string) : bool :=
  let n := String.length s in
  let k := String.length p in
  (Nat.leb k n && String.eqb (String.substring (n - k) k s) p)%bool.

Definition is_webcam (src : string) : bool :=
  (isnumeric src
   || (startswith src "rtsp://" || startswith src "rtmp://" || startswith src "http://")
   || endswith src ".txt")%bool.

(** Line 96: one list of three draws per class name. *)
Definition make_colors (rand : nat -> Z) (n : nat) : list (list Z) :=
  map (fun j => map (fun k => rand (3 * j + k)%nat) (seq 0 3)) (seq 0 n).

(** Lines 76-96: the namespace as the loop sees it. *)
Definition startup_args (ext : Externals) (args : Args) : Args :=
  let a1 := set_webcam (is_webcam (image_source args)) args in
  let a2 := set_mode (ds_mode ext) a1 in
  let a3 := set_names (get_coco_names (category_file ext)) a2 in
  set_colors (make_colors (randint ext) (length (names a3))) a3.

(** [main(args)], under the globals [g]. *)
Definition main (g : globals) (ext : Externals) (args : Args) : M unit :=
  do_ print [Repr args];
  let args' := startup_args ext args in
  do_ main_loop g args' (ds_frames ext);
  do_ (if save_txt args' || save_img args'
       then print [Lit "Results saved to "; Lit (output_dir args')]
       else ret tt);
  print [Lit "Done. ("; Num Pct3f (clock_end ext - clock_start ext); Lit "s)"].

End Pipeline.

(** ** Vocabulary of the statements *)

(** The class name a valid label selects. *)
Definition name_of (nms : list string) (c : Z) : string :=
  match py_index nms c with Ok nm => nm | Raise _ => "" end.

(** The summary entry of label [c]: ['%g %ss, ' % (n, name)]. *)
Definition class_item (nms : list string) (lbls : list Z) (c : Z) : text :=
  [Num PctG (of_nat (count_label c lbls)); Lit " "; Lit (name_of nms c); Lit "s, "].

Definition valid_label (nms : list string) (c : Z) : Prop :=
  - Z.of_nat (length nms) <= c < Z.of_nat (length nms).

(** [o] is what line 55 draws for the detection [d] under [args]. *)
Definition drawn_for (args : Args) (d : Box * Q * Z) (o : overlay) : Prop :=
  o_box o = fst (fst d)
  /\ py_index (colors args) (snd d) = Ok (o_color o)
  /\ o_label o = [Lit (name_of (names args) (snd d)); Lit " "; Num Pct2f (snd (fst d))]
  /\ o_thickness o = 3.

(** The overlays [st'] has that [st] had not. *)
Definition new_overlays (st st' : state) : list overlay :=
  drop (length (overlays (img st))) (overlays (img st')).

(** The screen and the keyboard are as they were. *)
Definition screen_untouched (st st' : state) : Prop :=
  shown st' = shown st /\ key_polls st' = key_polls st.

(** The detections lines 46-55 go through for one prediction. *)
Definition detections_of (pred : option Pred) : list (Box * Q * Z) :=
  match pred with
  | Some p => zip3 (map round_box (boxes p)) (scores p) (labels p)
  | None => []
  end.

(** The guard of line 36 is false for the prediction. *)
Definition skipped (pred : option Pred) : Prop :=
  match pred with
  | Some p => pred_len p = 0%nat
  | None => True
  end.

(** The loop of line 103 ran its body on every frame of [frames], in
    order, each body returning. *)
Fixpoint bodies_ran (g : globals) (args : Args) (frames : list Frame)
    (s s' : state) : Prop :=
  match frames with
  | [] => s' = s
  | fr :: r =>
      exists s1, loop_body g args fr s = (s1, Ok tt) /\ bodies_ran g args r s1 s'
  end.

(** ** Concrete inputs *)

(** The first six names of coco.names and a palette for them. *)
Definition coco6 : list string :=
  ["person"; "bicycle"; "car"; "motorcycle"; "airplane"; "bus"].

Definition palette6 : list (list Z) :=
  make_colors (fun k => Z.of_nat (7 * k)) 6.

Definition sample_args (txt im view : bool) (m : string) : Args :=
  {| image_source := "imgs/bus.jpg";
     coco_category_path := "coco.names";
     output_dir := "data-bin/output";
     save_txt := txt; save_img := im; view_img := view;
     webcam := false; mode := m;
     names := coco6; colors := palette6 |}.

(** A frame 200 wide and 400 high ([shape[:2]] is height, width). *)
Definition sample_frame (px : nat) : image :=
  {| shape := (400%nat, 200%nat); pixels := px; overlays := [] |}.

Definition sample_state (px : nat) : state :=
  {| fs := ∅; stdout := []; shown := []; key_polls := 0;
     img := sample_frame px |}.

Definition sample_box : Box :=
  {| xmin := 10 # 1; ymin := 20 # 1; xmax := 110 # 1; ymax := 220 # 1 |}.

Definition sample_pred (lbls : list Z) : Pred :=
  {| boxes := map (fun _ => sample_box) lbls;
     scores := map (fun _ => 9 # 10) lbls;
     labels := lbls |}.

Definition sample_ext : Externals :=
  {| ds_mode := "images";
     ds_frames := [mkFrame "imgs/bus.jpg" (sample_frame 2) (sample_frame 1) None];
     category_file := "person
bicycle
car
";
     randint := fun k => Z.of_nat (7 * k);
     clock_start := 0;
     clock_end := 1 |}.

(** An [inference] that returns a pair, for the call of line 105. *)
Definition sample_inference : pyfunc :=
  {| params := ["model"; "img"; "is_half"];
     body := fun _ => ret (VPair (VDetections [Some (sample_pred [2])])
                                 (VFloat (1 # 100))) |}.

(** ** Vocabulary of the further statements *)

(** The character [a] occurs in [s]. *)
Fixpoint has_char (a : ascii) (s : string) : bool :=
  match s with
  | EmptyString => false
  | String c r => (Ascii.eqb c a || has_char a r)%bool
  end.

(** The line ends of a file as stored: each line feed, and each carriage
    return that no line feed follows (a carriage return and its line feed
    are one line end). *)
Fixpoint line_ends (s : string) : nat :=
  match s with
  | EmptyString => 0%nat
  | String c r =>
      if Ascii.eqb c "013"%char then
        match r with
        | String d _ =>
            if Ascii.eqb d "010"%char then line_ends r else S (line_ends r)
        | EmptyString => 1%nat
        end
      else if Ascii.eqb c "010"%char then S (line_ends r)
      else line_ends r
  end.

(** The file ends in the middle of a line: it is not empty and its last
    character is neither a line feed nor a carriage return. *)
Fixpoint unterminated (s : string) : bool :=
  match s with
  | EmptyString => false
  | String c r =>
      match r with
      | EmptyString =>
          (negb (Ascii.eqb c "010"%char) && negb (Ascii.eqb c "013"%char))%bool
      | _ => unterminated r
      end
  end.

(** The three line ends a text file is stored with. *)
Definition line_end (eol : string) : Prop :=
  eol = String "010"%char EmptyString
  \/ eol = String "013"%char (String "010"%char EmptyString)
  \/ eol = String "013"%char EmptyString.

(** A class-name file: each name followed by the line end [eol]. *)
Fixpoint names_file (eol : string) (l : list string) : string :=
  match l with
  | [] => EmptyString
  | n :: r => n +:+ eol +:+ names_file eol r
  end.

Definition first_char (s : string) : option ascii :=
  match s with String c _ => Some c | EmptyString => None end.

Fixpoint last_char (s : string) : option ascii :=
  match s with
  | EmptyString => None
  | String c r => match r with EmptyString => Some c | _ => last_char r end
  end.

(** A name without line feed and carriage return and without whitespace
    at either end. *)
Definition clean_name (n : string) : Prop :=
  has_char "010" n = false /\ has_char "013" n = false
  /\ (forall c, first_char n = Some c -> is_space c = false)
  /\ (forall c, last_char n = Some c -> is_space c = false).

(** What line 38 binds for the prediction [p]. *)
Definition bound_by (p : Pred) : list Box * list Q * list Z :=
  (map round_box (boxes p), scores p, labels p).

(** The locals [boxes], [scores], [labels] after the predictions [ds]:
    those of the last prediction that is not [None]. *)
Fixpoint final_locals (ds : list (option Pred)) (loc : locals) : locals :=
  match ds with
  | [] => loc
  | Some p :: r => final_locals r (Some (bound_by p))
  | None :: r => final_locals r loc
  end.

(** A suffix of a file name: not empty, without ['/'] and without ['.']. *)
Definition plain_suffix (e : string) : Prop :=
  e <> "" /\ has_char "/" e = false /\ has_char "." e = false.

(** A file name of its own: not empty, not ['.'], without ['/']. *)
Definition plain_name (n : string) : Prop :=
  n <> "" /\ n <> "." /\ has_char "/" n = false.

(** Every label of every prediction of [ds] indexes a class name. *)
Definition labels_valid (nms : list string) (ds : list (option Pred)) : Prop :=
  forall p c, In (Some p) ds -> In c (labels p) -> valid_label nms c.

(** The label [c] indexes an entry of the color table. *)
Definition has_color (cols : list (list Z)) (c : Z) : Prop :=
  - Z.of_nat (length cols) <= c < Z.of_nat (length cols).

(** A box with whole coordinates. *)
Definition whole_box (b : Box) : Prop :=
  exists x0 y0 x1 y1 : Z,
    b = {| xmin := inject_Z x0; ymin := inject_Z y0;
           xmax := inject_Z x1; ymax := inject_Z y1 |}.

(** Each coordinate of [b'] is within half a pixel of that of [b]. *)
Definition within_half_pixel (b b' : Box) : Prop :=
  (Qabs (xmin b - xmin b') <= 1 # 2)%Q /\ (Qabs (ymin b - ymin b') <= 1 # 2)%Q
  /\ (Qabs (xmax b - xmax b') <= 1 # 2)%Q
  /\ (Qabs (ymax b - ymax b') <= 1 # 2)%Q.

(** The raster [im'] is [im] with overlays added. *)
Definition drawn_on (im im' : image) : Prop :=
  shape im' = shape im /\ pixels im' = pixels im
  /\ exists os, overlays im' = overlays im ++ os.

(** * Properties *)

(** ** The state monad *)

Lemma bind_ok {A B : Type} (m : M A) (k : A -> M B) (s s' : state) (a : A) :
  m s = (s', Ok a) -> bind m k s = k a s'.
Proof. intros H. unfold bind. now rewrite H. Qed.

Lemma bind_raise {A B : Type} (m : M A) (k : A -> M B) (s s' : state) (e : exn) :
  m s = (s', Raise e) -> bind m k s = (s', Raise e).
Proof. intros H. unfold bind. now rewrite H. Qed.

Lemma bind_inv_ok {A B : Type} (m : M A) (k : A -> M B) (s s2 : state) (b : B) :
  bind m k s = (s2, Ok b) ->
  exists s1 a, m s = (s1, Ok a) /\ k a s1 = (s2, Ok b).
Proof.
  unfold bind. destruct (m s) as [s1 [a | e]]; intros H.
  - exists s1, a. split; [reflexivity | exact H].
  - discriminate H.
Qed.

(** ** The per-frame loop of main *)

Section MainFacts.

Variable box_xyxy_to_cxcywh : Box -> CBox.

Local Abbreviation mg := (module_globals box_xyxy_to_cxcywh).

Lemma inference_unbound :
  lookup_name mg "inference" = Raise (NameError "inference").
Proof. reflexivity. Qed.

Lemma loop_body_name_error (args : Args) (fr : Frame) (st : state) :
  loop_body mg args fr st = (st, Raise (NameError "inference")).
Proof. reflexivity. Qed.

Lemma main_loop_module (args : Args) (frames : list Frame) (st : state) :
  main_loop mg args frames st =
  match frames with
  | [] => (st, Ok tt)
  | _ :: _ => (st, Raise (NameError "inference"))
  end.
Proof. destruct frames as [| fr rest]; reflexivity. Qed.

(** The state [main] stops in when the frame source is not empty: only the
    namespace has been printed. *)
Lemma main_module_nonempty (ext : Externals) (args : Args) (st : state)
    (fr : Frame) (rest : list Frame) :
  ds_frames ext = fr :: rest ->
  main mg ext args st =
  (set_stdout (stdout st ++ [[Repr args]]) st, Raise (NameError "inference")).
Proof.
  intros Hfr. unfold main.
  erewrite bind_ok by reflexivity.
  erewrite bind_raise; [reflexivity |].
  rewrite main_loop_module, Hfr. reflexivity.
Qed.

(** With any [inference] bound that returns a pair, line 108 is reached and
    its call passes six arguments to the five parameters of line 28. *)
Lemma loop_body_arity (f : pyfunc) (args : Args) (fr : Frame)
    (st1 st2 : state) (a b : pyval) :
  length (params f) = 3%nat ->
  body f [VModel; VImage (f_img fr); VBool false] st1 = (st2, Ok (VPair a b)) ->
  loop_body (("inference", Callable f) :: mg) args fr st1 =
  (st2, Raise (TypeError "wrong number of positional arguments")).
Proof.
  intros Hlen Hbody. unfold loop_body.
  erewrite bind_ok by reflexivity.
  erewrite bind_ok; cycle 1.
  { unfold call. rewrite Hlen. simpl. exact Hbody. }
  erewrite bind_ok by reflexivity.
  erewrite bind_ok by reflexivity.
  reflexivity.
Qed.

(** C1: when the frame source yields at least one frame, [main] stops in
    the first iteration of its loop with the unhandled NameError of the
    unbound name [inference], having only printed the namespace: no file
    is written, nothing is drawn, no frame is processed.  [overlay_boxes]
    has five parameters, and were [inference] bound to a function that
    returns a pair, the call of line 108 would raise a TypeError for its
    six positional arguments. *)
Theorem main_raises_on_first_frame (ext : Externals) (args : Args)
    (st : state) (fr : Frame) (rest : list Frame) :
  ds_frames ext = fr :: rest ->
  lookup_name mg "inference" = Raise (NameError "inference")
  /\ main mg ext args st =
     (set_stdout (stdout st ++ [[Repr args]]) st, Raise (NameError "inference"))
  /\ length (params (overlay_boxes_def box_xyxy_to_cxcywh)) = 5%nat
  /\ forall (f : pyfunc) (st1 st2 : state) (a b : pyval),
       length (params f) = 3%nat ->
       body f [VModel; VImage (f_img fr); VBool false] st1
         = (st2, Ok (VPair a b)) ->
       loop_body (("inference", Callable f) :: mg) (startup_args ext args) fr st1
         = (st2, Raise (TypeError "wrong number of positional arguments")).
Proof.
  intros Hfr. split; [apply inference_unbound |].
  split; [eapply main_module_nonempty; exact Hfr |].
  split; [reflexivity |].
  intros f st1 st2 a b Hlen Hbody. eapply loop_body_arity; eassumption.
Qed.

(** [main] never touches the screen or the keyboard. *)
Lemma main_module_screen (ext : Externals) (args : Args) (st : state) :
  screen_untouched st (fst (main mg ext args st)).
Proof.
  unfold main, bind, print. simpl. rewrite main_loop_module.
  destruct (ds_frames ext) as [| fr rest]; simpl.
  - destruct (save_txt args || save_img args); simpl; now split.
  - now split.
Qed.

(** [main] returns normally exactly when the frame source yields no frame.
    It then has printed the namespace, the line "Results saved to" with the
    output directory when save_txt or save_img is set, though nothing was
    saved, and the total time.  In no run does [main] write a file or draw
    on the raster. *)
Theorem main_returns_iff_no_frames (ext : Externals) (args : Args)
    (st : state) :
  (is_ok (snd (main mg ext args st)) = true <-> ds_frames ext = [])
  /\ fs (fst (main mg ext args st)) = fs st
  /\ img (fst (main mg ext args st)) = img st
  /\ (ds_frames ext = [] ->
      stdout (fst (main mg ext args st))
      = stdout st
        ++ [[Repr args]]
        ++ (if save_txt args || save_img args
            then [[Lit "Results saved to "; Lit (output_dir args)]] else [])
        ++ [[Lit "Done. ("; Num Pct3f (clock_end ext - clock_start ext);
             Lit "s)"]]).
Proof.
  unfold main, bind, print. simpl. rewrite main_loop_module.
  destruct (ds_frames ext) as [| fr rest]; simpl.
  - destruct (save_txt args || save_img args); simpl;
      (split; [split; reflexivity |]); repeat split;
      intros _; rewrite <- !app_assoc; reflexivity.
  - split; [split; discriminate |]. repeat split. discriminate.
Qed.

End MainFacts.

(** ** Python indexing and torch.unique *)

Lemma py_index_valid {A : Type} (l : list A) (i : Z) :
  - Z.of_nat (length l) <= i < Z.of_nat (length l) ->
  exists x, py_index l i = Ok x.
Proof.
  intros Hi. unfold py_index.
  set (n := Z.of_nat (length l)) in *.
  set (j := if i <? 0 then i + n else i).
  assert (Hj : 0 <= j < n).
  { subst j. destruct (Z.ltb_spec i 0); lia. }
  replace ((0 <=? j) && (j <? n)) with true
    by (symmetry; apply andb_true_iff; split;
        [apply Z.leb_le | apply Z.ltb_lt]; lia).
  destruct (l !! Z.to_nat j) as [x |] eqn:Hl.
  - now exists x.
  - apply lookup_ge_None in Hl. subst n. lia.
Qed.

Lemma py_index_invalid {A : Type} (l : list A) (i : Z) :
  ~ (- Z.of_nat (length l) <= i < Z.of_nat (length l)) ->
  py_index l i = Raise (IndexError "list index out of range").
Proof.
  intros Hi. unfold py_index.
  set (n := Z.of_nat (length l)) in *.
  set (j := if i <? 0 then i + n else i).
  assert (Hj : ~ (0 <= j < n)).
  { subst j. destruct (Z.ltb_spec i 0); lia. }
  destruct ((0 <=? j) && (j <? n)) eqn:Hb; [| reflexivity].
  apply andb_true_iff in Hb. destruct Hb as [H1 H2].
  apply Z.leb_le in H1. apply Z.ltb_lt in H2. lia.
Qed.

Lemma py_index_raises {A : Type} (l : list A) (i : Z) (e : exn) :
  py_index l i = Raise e -> e = IndexError "list index out of range".
Proof.
  unfold py_index.
  destruct ((0 <=? _) && (_ <? _)); [destruct (l !! _) |]; congruence.
Qed.

Lemma insert_sorted_In (x y : Z) (l : list Z) :
  In y (insert_sorted x l) <-> y = x \/ In y l.
Proof.
  induction l as [| z r IH]; simpl.
  - intuition.
  - destruct (Z.ltb_spec x z); [simpl; intuition |].
    destruct (Z.eqb_spec x z); simpl.
    + subst z. intuition.
    + rewrite IH. intuition.
Qed.

Lemma insert_sorted_Sorted (x : Z) (l : list Z) :
  Sorted Z.lt l -> Sorted Z.lt (insert_sorted x l).
Proof.
  induction l as [| z r IH]; simpl; intros Hs.
  - repeat constructor.
  - destruct (Z.ltb_spec x z).
    + constructor; [exact Hs | constructor; exact H].
    + destruct (Z.eqb_spec x z); [exact Hs |].
      apply Sorted_inv in Hs. destruct Hs as [Hr Hhd].
      constructor; [apply IH; exact Hr |].
      destruct r as [| w r']; simpl.
      * constructor. lia.
      * destruct (Z.ltb_spec x w); [constructor; lia |].
        destruct (Z.eqb_spec x w); constructor;
          apply HdRel_inv in Hhd; lia.
Qed.

Lemma unique_In (c : Z) (l : list Z) : In c (unique l) <-> In c l.
Proof.
  induction l as [| x r IH]; simpl; [reflexivity |].
  unfold unique in *. simpl. rewrite insert_sorted_In, IH. intuition.
Qed.

Lemma unique_Sorted (l : list Z) : Sorted Z.lt (unique l).
Proof.
  induction l as [| x r IH]; unfold unique in *; simpl.
  - constructor.
  - now apply insert_sorted_Sorted.
Qed.

Lemma unique_NoDup (l : list Z) : List.NoDup (unique l).
Proof.
  pose proof (unique_Sorted l) as Hs.
  apply Sorted_StronglySorted in Hs; [| intros a b c; lia].
  induction Hs as [| a r Hr IH Hall]; constructor; [| exact IH].
  intros Hin. rewrite List.Forall_forall in Hall.
  specialize (Hall a Hin). lia.
Qed.

(** ** The class summary (lines 41-43) *)

Lemma summary_loop_valid (cs lbls : list Z) (nms : list string) (s : text) :
  (forall c, In c cs -> valid_label nms c) ->
  summary_loop cs lbls nms s = Ok (s ++ flat_map (class_item nms lbls) cs).
Proof.
  revert s. induction cs as [| c r IH]; intros s Hv; simpl.
  - now rewrite app_nil_r.
  - destruct (py_index_valid nms c) as [nm Hnm]; [apply Hv; now left |].
    rewrite Hnm, IH by (intros c' Hc'; apply Hv; now right).
    unfold class_item at 2, name_of. rewrite Hnm.
    now rewrite <- app_assoc.
Qed.

Lemma summary_loop_invalid (cs lbls : list Z) (nms : list string) (s : text) (c : Z) :
  In c cs -> ~ valid_label nms c ->
  summary_loop cs lbls nms s = Raise (IndexError "list index out of range").
Proof.
  revert s. induction cs as [| c' r IH]; intros s Hin Hbad; simpl.
  - destruct Hin.
  - destruct (py_index nms c') as [nm | e] eqn:Hc'.
    + destruct Hin as [-> | Hin].
      * rewrite py_index_invalid in Hc' by exact Hbad. discriminate.
      * now apply IH.
    + now rewrite (py_index_raises _ _ _ Hc').
Qed.

(** C4, amended: when every label is a valid index, the summary lists each
    distinct label exactly once, as its count followed by the class name
    with an [s] appended, in ascending numeric label order (the order of
    [labels.unique()]); for the labels [2,2,5] it lists label 2 with
    count 2 before label 5 with count 1. *)
Theorem summary_in_ascending_label_order (lbls : list Z) (nms : list string)
    (s : text) :
  (forall c, In c lbls -> valid_label nms c) ->
  summary_loop (unique lbls) lbls nms s
    = Ok (s ++ flat_map (class_item nms lbls) (unique lbls))
  /\ Sorted Z.lt (unique lbls)
  /\ List.NoDup (unique lbls)
  /\ (forall c, In c (unique lbls) <-> In c lbls)
  /\ unique [2; 2; 5] = [2; 5]
  /\ count_label 2 [2; 2; 5] = 2%nat
  /\ count_label 5 [2; 2; 5] = 1%nat.
Proof.
  intros Hv. split.
  { apply summary_loop_valid. intros c Hc. apply Hv. now apply unique_In. }
  split; [apply unique_Sorted |].
  split; [apply unique_NoDup |].
  split; [intros c; apply unique_In |].
  repeat split; reflexivity.
Qed.

(** ** What one detection does (lines 47-55) *)

Section PipelineFacts.

Variable box_xyxy_to_cxcywh : Box -> CBox.

Local Abbreviation write_one' := (write_one box_xyxy_to_cxcywh).
Local Abbreviation write_loop' := (write_loop box_xyxy_to_cxcywh).
Local Abbreviation frame_body' := (frame_body box_xyxy_to_cxcywh).
Local Abbreviation detections_loop' := (detections_loop box_xyxy_to_cxcywh).
Local Abbreviation overlay_boxes' := (overlay_boxes box_xyxy_to_cxcywh).

Local Abbreviation line_of' := (line_of box_xyxy_to_cxcywh).

Lemma file_at_insert_eq (st : state) (p : string) (f : list blob) :
  file_at (set_fs (<[p := f]> (fs st)) st) p = f.
Proof. unfold file_at. simpl. now rewrite lookup_insert_eq. Qed.

Lemma write_one_frame (d : Box * Q * Z) (path : string) (args : Args)
    (st st' : state) (r : result unit) :
  write_one' d path args st = (st', r) ->
  stdout st' = stdout st
  /\ screen_untouched st st'
  /\ shape (img st') = shape (img st)
  /\ pixels (img st') = pixels (img st)
  /\ (forall p, p <> txt_file args path -> fs st' !! p = fs st !! p)
  /\ (save_txt args = false -> fs st' = fs st)
  /\ (save_txt args = true ->
      file_at st' (txt_file args path)
      = file_at st (txt_file args path) ++ [line_of' d]).
Proof.
  destruct d as [[xyxy conf] cls]. unfold write_one, bind, lift, ret,
    append_write, plot_one_box, screen_untouched, line_of.
  destruct (save_txt args); destruct (save_img args || view_img args);
    simpl;
    try (destruct (py_index (names args) cls)); simpl;
    try (destruct (py_index (colors args) cls)); simpl;
    intros [= <- <-]; simpl;
    repeat split; try congruence; try reflexivity;
    try (intros p Hp; now rewrite lookup_insert_ne by congruence);
    try (intros _; apply file_at_insert_eq).
Qed.

Lemma write_one_draws (d : Box * Q * Z) (path : string) (args : Args)
    (st st' : state) :
  save_img args || view_img args = true ->
  write_one' d path args st = (st', Ok tt) ->
  exists o, overlays (img st') = overlays (img st) ++ [o] /\ drawn_for args d o.
Proof.
  destruct d as [[xyxy conf] cls]. intros Hflag.
  unfold write_one, bind, lift, ret, append_write, plot_one_box, drawn_for,
    name_of.
  rewrite Hflag.
  destruct (save_txt args); simpl;
    destruct (py_index (names args) cls) as [nm | e1]; simpl;
    try discriminate;
    destruct (py_index (colors args) cls) as [col | e2]; simpl;
    try discriminate;
    intros [= <-]; simpl; eexists; (split; [reflexivity |]); simpl;
    repeat split; reflexivity.
Qed.

Lemma write_one_no_draw (d : Box * Q * Z) (path : string) (args : Args)
    (st st' : state) (r : result unit) :
  save_img args || view_img args = false ->
  write_one' d path args st = (st', r) ->
  img st' = img st /\ r = Ok tt.
Proof.
  destruct d as [[xyxy conf] cls]. intros Hflag.
  unfold write_one, bind, lift, ret, append_write.
  rewrite Hflag. destruct (save_txt args); simpl; intros [= <- <-]; now split.
Qed.

Lemma write_one_raises (d : Box * Q * Z) (path : string) (args : Args)
    (st st' : state) (e : exn) :
  write_one' d path args st = (st', Raise e) ->
  e = IndexError "list index out of range".
Proof.
  destruct d as [[xyxy conf] cls].
  unfold write_one, bind, lift, ret, append_write, plot_one_box.
  destruct (save_txt args); destruct (save_img args || view_img args);
    simpl; try discriminate;
    destruct (py_index (names args) cls) as [nm | e1] eqn:H1; simpl;
    try (intros [= _ <-]; now apply py_index_raises in H1);
    destruct (py_index (colors args) cls) as [col | e2] eqn:H2; simpl;
    try discriminate;
    intros [= _ <-]; now apply py_index_raises in H2.
Qed.

(** ** The loop over the detections of a frame (lines 46-55) *)

Lemma write_loop_frame (dets : list (Box * Q * Z)) (path : string)
    (args : Args) (st st' : state) (r : result unit) :
  write_loop' dets path args st = (st', r) ->
  stdout st' = stdout st
  /\ screen_untouched st st'
  /\ shape (img st') = shape (img st)
  /\ pixels (img st') = pixels (img st)
  /\ (forall p, p <> txt_file args path -> fs st' !! p = fs st !! p)
  /\ (save_txt args = false -> fs st' = fs st).
Proof.
  revert st. induction dets as [| d rest IH]; intros st; simpl.
  - unfold ret. intros [= <- <-]. unfold screen_untouched. repeat split.
  - unfold bind. destruct (write_one' d path args st) as [s1 r1] eqn:H1.
    apply write_one_frame in H1.
    destruct H1 as (Ho & [Hs Hk] & Hsh & Hpx & Hfs & Hno & _).
    destruct r1 as [[] | e].
    + intros H2. apply IH in H2.
      destruct H2 as (Ho2 & [Hs2 Hk2] & Hsh2 & Hpx2 & Hfs2 & Hno2).
      unfold screen_untouched.
      repeat split; try congruence.
      * intros p Hp. rewrite Hfs2, Hfs by exact Hp. reflexivity.
      * intros Hf. rewrite Hno2, Hno by exact Hf. reflexivity.
    + intros [= <- <-]. unfold screen_untouched. repeat split; assumption.
Qed.

Lemma write_loop_lines (dets : list (Box * Q * Z)) (path : string)
    (args : Args) (st st' : state) :
  save_txt args = true ->
  write_loop' dets path args st = (st', Ok tt) ->
  file_at st' (txt_file args path)
  = file_at st (txt_file args path) ++ map line_of' dets.
Proof.
  intros Htxt. revert st. induction dets as [| d rest IH]; intros st; simpl.
  - unfold ret. intros [= <-]. now rewrite app_nil_r.
  - intros H. apply bind_inv_ok in H. destruct H as (s1 & [] & H1 & H2).
    apply write_one_frame in H1.
    destruct H1 as (_ & _ & _ & _ & _ & _ & Hline).
    rewrite (IH _ H2), (Hline Htxt), <- app_assoc. reflexivity.
Qed.

Lemma write_loop_draws (dets : list (Box * Q * Z)) (path : string)
    (args : Args) (st st' : state) :
  save_img args || view_img args = true ->
  write_loop' dets path args st = (st', Ok tt) ->
  exists os, overlays (img st') = overlays (img st) ++ os
             /\ Forall2 (drawn_for args) dets os.
Proof.
  intros Hflag. revert st. induction dets as [| d rest IH]; intros st; simpl.
  - unfold ret. intros [= <-]. exists []. split; [now rewrite app_nil_r |].
    constructor.
  - intros H. apply bind_inv_ok in H. destruct H as (s1 & [] & H1 & H2).
    apply (write_one_draws _ _ _ _ _ Hflag) in H1. destruct H1 as (o & Ho & Hd).
    destruct (IH _ H2) as (os & Hos & Hall).
    exists (o :: os). split.
    + rewrite Hos, Ho, <- app_assoc. reflexivity.
    + now constructor.
Qed.

Lemma write_loop_no_draw (dets : list (Box * Q * Z)) (path : string)
    (args : Args) (st st' : state) (r : result unit) :
  save_img args || view_img args = false ->
  write_loop' dets path args st = (st', r) ->
  img st' = img st /\ r = Ok tt.
Proof.
  intros Hflag. revert st. induction dets as [| d rest IH]; intros st; simpl.
  - unfold ret. intros [= <- <-]. now split.
  - unfold bind. destruct (write_one' d path args st) as [s1 r1] eqn:H1.
    apply (write_one_no_draw _ _ _ _ _ _ Hflag) in H1. destruct H1 as [Hi ->].
    intros H2. apply IH in H2. destruct H2 as [Hi2 ->]. split; congruence.
Qed.

Lemma write_loop_raises (dets : list (Box * Q * Z)) (path : string)
    (args : Args) (st st' : state) (e : exn) :
  write_loop' dets path args st = (st', Raise e) ->
  e = IndexError "list index out of range".
Proof.
  revert st. induction dets as [| d rest IH]; intros st; simpl.
  - unfold ret. discriminate.
  - unfold bind. destruct (write_one' d path args st) as [s1 [[] | e1]] eqn:H1.
    + apply IH.
    + intros [= _ <-]. now apply write_one_raises in H1.
Qed.

(** ** One frame (lines 31-62) *)

Lemma frame_tail_run (s : text) (t : Q) (path : string) (args : Args)
    (st : state) :
  exists st', frame_tail s t path args st = (st', Ok tt)
    /\ stdout st' = stdout st ++ [done_line s t]
    /\ img st' = img st
    /\ screen_untouched st st'
    /\ fs st' = (if save_img args && String.eqb (mode args) "images"
                 then <[save_file args path := [ImageData (img st)]]> (fs st)
                 else fs st).
Proof.
  unfold frame_tail, bind, print, imwrite, ret, screen_untouched.
  destruct (save_img args && String.eqb (mode args) "images"); simpl;
    eexists; (split; [reflexivity |]); simpl; repeat split; reflexivity.
Qed.

Lemma frame_detections_invalid (p : Pred) (path : string) (args : Args)
    (s : text) (loc : locals) (st : state) (c : Z) :
  In c (labels p) -> ~ valid_label (names args) c ->
  frame_detections box_xyxy_to_cxcywh (Some p) path args s loc st
  = (st, Raise (IndexError "list index out of range")).
Proof.
  intros Hin Hbad. unfold frame_detections. simpl.
  unfold bind, lift.
  rewrite (summary_loop_invalid _ _ _ _ c); [reflexivity | | exact Hbad].
  now apply unique_In.
Qed.

Lemma frame_detections_ok_inv (p : Pred) (path : string) (args : Args)
    (s s' : text) (loc loc' : locals) (st st' : state) :
  frame_detections box_xyxy_to_cxcywh (Some p) path args s loc st
  = (st', Ok (s', loc')) ->
  summary_loop (unique (labels p)) (labels p) (names args) s = Ok s'
  /\ write_loop' (zip3 (map round_box (boxes p)) (scores p) (labels p))
       path args st = (st', Ok tt)
  /\ loc' = Some (map round_box (boxes p), scores p, labels p).
Proof.
  unfold frame_detections. simpl. unfold bind, lift, ret.
  destruct (summary_loop _ _ _ s) as [s1 | e]; [| discriminate].
  destruct (write_loop' _ path args st) as [s2 [[] | e]]; [| discriminate].
  intros [= <- <- <-]. repeat split.
Qed.

Lemma frame_detections_frame (pred : option Pred) (path : string)
    (args : Args) (s : text) (loc : locals) (st st' : state)
    (r : result (text * locals)) :
  frame_detections box_xyxy_to_cxcywh pred path args s loc st = (st', r) ->
  stdout st' = stdout st
  /\ screen_untouched st st'
  /\ shape (img st') = shape (img st)
  /\ pixels (img st') = pixels (img st)
  /\ (forall q, q <> txt_file args path -> fs st' !! q = fs st !! q)
  /\ (save_txt args = false -> fs st' = fs st)
  /\ (forall e, r = Raise e -> e = IndexError "list index out of range").
Proof.
  destruct pred as [p |]; unfold frame_detections; simpl.
  - unfold bind, lift, ret.
    destruct (summary_loop _ _ _ s) as [s1 | e] eqn:Hs.
    + destruct (write_loop' _ path args st) as [s2 [[] | e]] eqn:Hw;
        intros [= <- <-];
        pose proof (write_loop_frame _ _ _ _ _ _ Hw) as (H1 & H2 & H3 & H4 & H5 & H6);
        repeat split; try assumption; try (apply H2); try discriminate.
      intros e' [= <-]. now apply write_loop_raises in Hw.
    + intros [= <- <-]. unfold screen_untouched.
      repeat split.
      intros e' [= <-].
      clear -Hs. revert s Hs.
      induction (unique (labels p)) as [| c r IH]; simpl; intros s Hs;
        [discriminate |].
      destruct (py_index (names args) c) eqn:Hc.
      * now apply IH in Hs.
      * injection Hs as <-. now apply py_index_raises in Hc.
  - unfold ret. intros [= <- <-]. unfold screen_untouched.
    repeat split. discriminate.
Qed.

Lemma frame_body_ok_inv (i : nat) (pred : option Pred) (path : string)
    (t : Q) (args : Args) (loc loc' : locals) (st st' : state) :
  frame_body' i pred path t args loc st = (st', Ok loc') ->
  exists s1 s',
    frame_detections box_xyxy_to_cxcywh pred path args
      (frame_header i args (img st)) loc st = (s1, Ok (s', loc'))
    /\ frame_tail s' t path args s1 = (st', Ok tt).
Proof.
  unfold frame_body, get_img. unfold bind at 1.
  intros H. apply bind_inv_ok in H. destruct H as (s1 & [s' l1] & H1 & H2).
  apply bind_inv_ok in H2. destruct H2 as (s2 & [] & H2 & H3).
  unfold ret in H3. injection H3 as <- <-.
  exists s1, s'. split; assumption.
Qed.

Lemma frame_body_none (i : nat) (path : string) (t : Q) (args : Args)
    (loc : locals) (st : state) :
  frame_body' i None path t args loc st
  = (fst (frame_tail (frame_header i args (img st)) t path args st), Ok loc).
Proof.
  unfold frame_body, get_img, frame_detections. unfold bind at 1 2.
  unfold ret at 1. simpl.
  destruct (frame_tail_run (frame_header i args (img st)) t path args st)
    as (st' & Ht & _).
  erewrite bind_ok by exact Ht. now rewrite Ht.
Qed.

(** C5: a frame with a detection whose label exceeds the highest valid
    index of the class-name table stops with the IndexError of the summary
    loop (line 43), in the state it started in: no label line was appended,
    no image written, nothing printed or drawn for that frame. *)
Theorem invalid_label_is_fatal (i : nat) (p : Pred) (path : string) (t : Q)
    (args : Args) (loc : locals) (st : state) (c : Z) :
  In c (labels p) ->
  Z.of_nat (length (names args)) <= c ->
  frame_body' i (Some p) path t args loc st
    = (st, Raise (IndexError "list index out of range"))
  /\ overlay_boxes' [Some p] path t args st
    = (st, Raise (IndexError "list index out of range")).
Proof.
  intros Hin Hc.
  assert (Hbad : ~ valid_label (names args) c) by (unfold valid_label; lia).
  assert (Hbody : forall l, frame_body' i (Some p) path t args l st
            = (st, Raise (IndexError "list index out of range"))).
  { intros l. unfold frame_body, get_img. unfold bind at 1.
    erewrite bind_raise; [reflexivity |].
    now apply (frame_detections_invalid _ _ _ _ _ _ c). }
  split; [apply Hbody |].
  unfold overlay_boxes. simpl.
  erewrite bind_raise; [reflexivity |].
  erewrite bind_raise; [reflexivity |].
  unfold frame_body, get_img. unfold bind at 1.
  erewrite bind_raise; [reflexivity |].
  now apply (frame_detections_invalid _ _ _ _ _ _ c).
Qed.

Lemma frame_body_frame (i : nat) (pred : option Pred) (path : string)
    (t : Q) (args : Args) (loc : locals) (st st' : state) (r : result locals) :
  frame_body' i pred path t args loc st = (st', r) ->
  screen_untouched st st'
  /\ shape (img st') = shape (img st)
  /\ pixels (img st') = pixels (img st)
  /\ (save_img args && String.eqb (mode args) "images" = false ->
      (forall q, q <> txt_file args path -> fs st' !! q = fs st !! q)
      /\ (save_txt args = false -> fs st' = fs st)).
Proof.
  unfold frame_body, get_img. unfold bind at 1. unfold bind at 1.
  destruct (frame_detections _ pred path args _ loc st) as [s1 r1] eqn:Hd.
  apply frame_detections_frame in Hd.
  destruct Hd as (_ & [Hs Hk] & Hsh & Hpx & Hfs & Hno & _).
  destruct r1 as [[s' l1] | e].
  - destruct (frame_tail_run s' t path args s1) as (s2 & Ht & _ & Hi & [Hs2 Hk2] & Hf2).
    erewrite bind_ok by exact Ht. unfold ret. intros [= <- <-].
    unfold screen_untouched. rewrite Hi.
    repeat split; try congruence.
    + intros q Hq. rewrite Hf2, H. now apply Hfs.
    + intros Hx. rewrite Hf2, H. now apply Hno.
  - intros [= <- <-]. unfold screen_untouched. repeat split; auto.
Qed.

Lemma frame_body_draws (i : nat) (p : Pred) (path : string) (t : Q)
    (args : Args) (loc loc' : locals) (st st' : state) :
  save_img args || view_img args = true ->
  frame_body' i (Some p) path t args loc st = (st', Ok loc') ->
  exists os,
    overlays (img st') = overlays (img st) ++ os
    /\ Forall2 (drawn_for args)
         (zip3 (map round_box (boxes p)) (scores p) (labels p)) os.
Proof.
  intros Hflag H. apply frame_body_ok_inv in H.
  destruct H as (s1 & s' & Hd & Ht).
  apply frame_detections_ok_inv in Hd. destruct Hd as (_ & Hw & _).
  destruct (write_loop_draws _ _ _ _ _ Hflag Hw) as (os & Hos & Hall).
  destruct (frame_tail_run s' t path args s1) as (s2 & Ht2 & _ & Hi & _).
  rewrite Ht in Ht2. injection Ht2 as <-.
  exists os. split; [now rewrite Hi | exact Hall].
Qed.


(** ** overlay_boxes (lines 30-64) *)

Lemma overlay_boxes_state (ds : list (option Pred)) (path : string) (t : Q)
    (args : Args) (st : state) :
  fst (overlay_boxes' ds path t args st)
  = fst (detections_loop' 0 ds path t args None st).
Proof.
  unfold overlay_boxes, bind.
  destruct (detections_loop' 0 ds path t args None st) as [s1 [[r |] | e]];
    reflexivity.
Qed.

Lemma detections_loop_frame (ds : list (option Pred)) (i : nat)
    (path : string) (t : Q) (args : Args) (loc : locals) (st st' : state)
    (r : result locals) :
  detections_loop' i ds path t args loc st = (st', r) ->
  screen_untouched st st'
  /\ (save_img args && String.eqb (mode args) "images" = false ->
      (forall q, q <> txt_file args path -> fs st' !! q = fs st !! q)
      /\ (save_txt args = false -> fs st' = fs st)).
Proof.
  revert i loc st. induction ds as [| pred rest IH]; intros i loc st; simpl.
  - unfold ret. intros [= <- <-]. unfold screen_untouched. repeat split.
  - unfold bind.
    destruct (frame_body' i pred path t args loc st) as [s1 r1] eqn:Hb.
    apply frame_body_frame in Hb. destruct Hb as ([Hs Hk] & _ & _ & Hfs).
    destruct r1 as [l1 | e].
    + intros H. apply IH in H. destruct H as ([Hs2 Hk2] & Hfs2).
      unfold screen_untouched. split; [split; congruence |].
      intros Hx. destruct (Hfs Hx) as [Ha Hb]. destruct (Hfs2 Hx) as [Ha2 Hb2].
      split.
      * intros q Hq. rewrite Ha2, Ha by exact Hq. reflexivity.
      * intros Hy. rewrite Hb2, Hb by exact Hy. reflexivity.
    + intros [= <- <-]. unfold screen_untouched.
      split; [split; assumption | exact Hfs].
Qed.

Lemma overlay_boxes_frame (ds : list (option Pred)) (path : string) (t : Q)
    (args : Args) (st : state) :
  let st' := fst (overlay_boxes' ds path t args st) in
  screen_untouched st st'
  /\ (save_img args && String.eqb (mode args) "images" = false ->
      (forall q, q <> txt_file args path -> fs st' !! q = fs st !! q)
      /\ (save_txt args = false -> fs st' = fs st)).
Proof.
  simpl. rewrite overlay_boxes_state.
  destruct (detections_loop' 0 ds path t args None st) as [s1 r1] eqn:H.
  simpl. eapply detections_loop_frame. exact H.
Qed.

(** The part of the empty-frame behaviour that holds: a prediction with
    empty tensors is processed and returned. *)
Lemma empty_tensors_processed (path : string) (t : Q) (args : Args)
    (st : state) :
  overlay_boxes' [Some (mkPred [] [] [])] path t args st
  = (fst (frame_tail (frame_header 0 args (img st)) t path args st),
     Ok ([], [], [])).
Proof.
  unfold overlay_boxes. simpl.
  unfold frame_body, get_img, frame_detections. simpl.
  unfold bind at 1 2 3 4 5 6. simpl. unfold ret at 1 2. simpl.
  destruct (frame_tail_run (frame_header 0 args (img st)) t path args st)
    as (st' & Ht & _).
  erewrite bind_ok by exact Ht. now rewrite Ht.
Qed.

(** C3, at the empty inputs the guard of line 36 lets through: for a
    prediction that is [None] the frame is printed and, with save_img in
    images mode, its image written, and then line 64 raises
    UnboundLocalError, since line 38 never bound [boxes]; for an empty
    [detections] list line 64 raises at once. *)
Theorem empty_frame_unbound_locals (path : string) (t : Q) (args : Args)
    (st : state) :
  overlay_boxes' [None] path t args st
    = (fst (frame_tail (frame_header 0 args (img st)) t path args st),
       Raise (UnboundLocalError "boxes"))
  /\ overlay_boxes' [] path t args st
    = (st, Raise (UnboundLocalError "boxes")).
Proof.
  split; [| reflexivity].
  unfold overlay_boxes. simpl detections_loop. unfold bind.
  rewrite frame_body_none. reflexivity.
Qed.

(** ** The output writer *)


Lemma frame_body_none_image (i : nat) (path : string) (t : Q) (args : Args)
    (loc : locals) (st st' : state) (r : result locals) :
  frame_body' i None path t args loc st = (st', r) -> img st' = img st.
Proof.
  rewrite frame_body_none. intros [= <- _].
  destruct (frame_tail_run (frame_header i args (img st)) t path args st)
    as (s2 & Ht & _ & Hi & _).
  now rewrite Ht.
Qed.

Lemma detections_loop_draws (ds : list (option Pred)) (i : nat)
    (path : string) (t : Q) (args : Args) (loc loc' : locals)
    (st st' : state) :
  save_img args || view_img args = true ->
  detections_loop' i ds path t args loc st = (st', Ok loc') ->
  exists os,
    overlays (img st') = overlays (img st) ++ os
    /\ Forall2 (drawn_for args) (flat_map detections_of ds) os.
Proof.
  intros Hflag. revert i loc st.
  induction ds as [| pred rest IH]; intros i loc st; simpl.
  - unfold ret. intros [= <- _]. exists []. split; [now rewrite app_nil_r |].
    constructor.
  - intros H. apply bind_inv_ok in H. destruct H as (s1 & l1 & Hb & Hr).
    destruct (IH _ _ _ Hr) as (os2 & Hos2 & Hall2).
    destruct pred as [p |].
    + destruct (frame_body_draws _ _ _ _ _ _ _ _ _ Hflag Hb)
        as (os1 & Hos1 & Hall1).
      exists (os1 ++ os2). split.
      * rewrite Hos2, Hos1, <- app_assoc. reflexivity.
      * now apply Forall2_app.
    + apply frame_body_none_image in Hb. exists os2. split.
      * now rewrite Hos2, Hb.
      * exact Hall2.
Qed.

Lemma overlay_boxes_draws (ds : list (option Pred)) (path : string) (t : Q)
    (args : Args) (st st' : state) (r : list Box * list Q * list Z) :
  save_img args || view_img args = true ->
  overlay_boxes' ds path t args st = (st', Ok r) ->
  Forall2 (drawn_for args) (flat_map detections_of ds) (new_overlays st st').
Proof.
  intros Hflag H. unfold overlay_boxes in H. apply bind_inv_ok in H.
  destruct H as (s1 & l1 & Hd & Hr).
  destruct l1 as [x |]; [| discriminate].
  unfold ret in Hr. injection Hr as <- _.
  destruct (detections_loop_draws _ _ _ _ _ _ _ _ _ Hflag Hd)
    as (os & Hos & Hall).
  unfold new_overlays. now rewrite Hos, drop_app_length.
Qed.

(** C7, amended: when the source mode is not "images", overlay_boxes
    writes no image and no video, whatever save_img is: every file other
    than the label text file is as it was, and with save_txt unset the
    whole file system is.  With save_img set the boxes are drawn all the
    same, on the frame in memory: those of every prediction of a call
    that returns, in order, and those of every frame that is processed. *)
Theorem no_output_outside_images_mode (ds : list (option Pred))
    (path : string) (t : Q) (args : Args) (st : state) :
  mode args <> "images" ->
  (forall q, q <> txt_file args path ->
     fs (fst (overlay_boxes' ds path t args st)) !! q = fs st !! q)
  /\ (save_txt args = false ->
      fs (fst (overlay_boxes' ds path t args st)) = fs st)
  /\ (save_img args = true ->
      forall (st' : state) (r : list Box * list Q * list Z),
        overlay_boxes' ds path t args st = (st', Ok r) ->
        Forall2 (drawn_for args) (flat_map detections_of ds)
          (new_overlays st st'))
  /\ (save_img args = true ->
      forall (i : nat) (p : Pred) (loc loc' : locals) (st1 st2 : state),
        frame_body' i (Some p) path t args loc st1 = (st2, Ok loc') ->
        Forall2 (drawn_for args) (detections_of (Some p))
          (new_overlays st1 st2)
        /\ (forall q, q <> txt_file args path -> fs st2 !! q = fs st1 !! q)).
Proof.
  intros Hmode.
  assert (Hno : save_img args && String.eqb (mode args) "images" = false)
    by (apply andb_false_iff; right; now apply String.eqb_neq).
  destruct (overlay_boxes_frame ds path t args st) as [_ Hfs].
  destruct (Hfs Hno) as [Hother Hnone].
  split; [exact Hother |]. split; [exact Hnone |]. split.
  - intros Hsave st' r H. eapply overlay_boxes_draws; [| exact H].
    now rewrite Hsave.
  - intros Hsave i p loc loc' st1 st2 H. split.
    + destruct (frame_body_draws i p path t args loc loc' st1 st2)
        as (os & Hos & Hall); [now rewrite Hsave | exact H |].
      unfold new_overlays. now rewrite Hos, drop_app_length.
    + apply frame_body_frame in H. destruct H as (_ & _ & _ & Hf).
      now destruct (Hf Hno).
Qed.

Lemma main_loop_returns (g : globals) (args : Args) (frames : list Frame)
    (s s' : state) :
  main_loop g args frames s = (s', Ok tt) <-> bodies_ran g args frames s s'.
Proof.
  revert s. induction frames as [| fr rest IH]; intros s; simpl.
  - unfold ret. split; [now intros [= <-] | now intros ->].
  - split.
    + intros H. apply bind_inv_ok in H. destruct H as (s1 & [] & Hb & Hr).
      exists s1. split; [exact Hb | now apply IH].
    + intros (s1 & Hb & Hr). erewrite bind_ok by exact Hb. now apply IH.
Qed.

Lemma main_loop_raises (g : globals) (args : Args) (frames : list Frame)
    (s s' : state) (e : exn) :
  main_loop g args frames s = (s', Raise e) ->
  exists (done : list Frame) (fr : Frame) (rest : list Frame) (s1 : state),
    frames = done ++ fr :: rest
    /\ bodies_ran g args done s s1
    /\ loop_body g args fr s1 = (s', Raise e).
Proof.
  revert s. induction frames as [| fr rest IH]; intros s; simpl.
  - unfold ret. discriminate.
  - unfold bind. destruct (loop_body g args fr s) as [s1 [[] | e1]] eqn:Hb.
    + intros H. destruct (IH _ H) as (done & fr' & rest' & s2 & -> & Hran & Hf).
      exists (fr :: done), fr', rest', s2. split; [reflexivity |].
      split; [| exact Hf]. exists s1. split; [exact Hb | exact Hran].
    + intros [= <- <-]. exists [], fr, rest, s. repeat split. exact Hb.
Qed.

Lemma spec_view_step_shows (args : Args) (s : state) :
  view_img args = true ->
  shown (fst (spec_view_step args s)) = shown s ++ [img s]
  /\ key_polls (fst (spec_view_step args s)) = S (key_polls s).
Proof. unfold spec_view_step. intros ->. split; reflexivity. Qed.

(** C8: with view_img set, a frame that is processed has the box of each
    of its detections drawn on the raster in memory (lines 53-55), and
    that is all view_img does.  Neither overlay_boxes nor main puts a frame
    on the screen or polls the keyboard: after a frame the screen holds
    what it held and no key was polled, where the display step of the
    contract puts the annotated frame on the screen and polls once.  The
    loop of main has no exit of its own: when it returns, its body ran and
    returned on every frame of the source, and when it does not, a body
    raised. *)
Theorem view_img_draws_without_display (ds : list (option Pred))
    (path : string) (t : Q) (args : Args) (st : state) :
  screen_untouched st (fst (overlay_boxes' ds path t args st))
  /\ (forall (ext : Externals) (a0 : Args) (st0 : state),
      screen_untouched st0
        (fst (main (module_globals box_xyxy_to_cxcywh) ext a0 st0)))
  /\ (forall (i : nat) (p : Pred) (loc loc' : locals) (st1 st2 : state),
      view_img args = true ->
      frame_body' i (Some p) path t args loc st1 = (st2, Ok loc') ->
      (exists os,
         overlays (img st2) = overlays (img st1) ++ os
         /\ Forall2 (drawn_for args)
              (zip3 (map round_box (boxes p)) (scores p) (labels p)) os)
      /\ shown st2 = shown st1
      /\ key_polls st2 = key_polls st1
      /\ shown (fst (spec_view_step args st2)) = shown st1 ++ [img st2]
      /\ key_polls (fst (spec_view_step args st2)) = S (key_polls st1))
  /\ (forall (g : globals) (a : Args) (frames : list Frame) (s s' : state),
      main_loop g a frames s = (s', Ok tt) <-> bodies_ran g a frames s s')
  /\ (forall (g : globals) (a : Args) (frames : list Frame) (s s' : state)
             (e : exn),
      main_loop g a frames s = (s', Raise e) ->
      exists (done : list Frame) (fr : Frame) (rest : list Frame)
             (s1 : state),
        frames = done ++ fr :: rest
        /\ bodies_ran g a done s s1
        /\ loop_body g a fr s1 = (s', Raise e)).
Proof.
  split; [apply overlay_boxes_frame |].
  split; [intros; apply main_module_screen |].
  split; [| split; [intros; apply main_loop_returns
                   | intros; now apply main_loop_raises]].
  intros i p loc loc' st1 st2 Hview H.
  pose proof (frame_body_frame _ _ _ _ _ _ _ _ _ H) as ([Hs Hk] & _).
  destruct (spec_view_step_shows args st2 Hview) as [Hshow Hpoll].
  split; [| rewrite Hshow, Hpoll, Hs, Hk; repeat split].
  eapply frame_body_draws; [| exact H].
  rewrite Hview. apply orb_true_r.
Qed.

(** ** The color palette (line 96) *)

Lemma make_colors_length (rand : nat -> Z) (n : nat) :
  length (make_colors rand n) = n.
Proof. unfold make_colors. now rewrite length_map, length_seq. Qed.

Lemma make_colors_triples (rand : nat -> Z) (n : nat) :
  Forall (fun c => length c = 3%nat) (make_colors rand n).
Proof.
  unfold make_colors. apply Forall_map. apply Forall_forall.
  intros j _. reflexivity.
Qed.

(** C10: the palette [main] builds has one entry of three values per
    class name, and in every frame processed under the namespace of the run
    the color of the box drawn for a detection is the palette entry its
    label selects; the namespace is a value the loop only reads. *)
Theorem palette_one_triple_per_class (ext : Externals) (args0 : Args) :
  length (colors (startup_args ext args0))
    = length (names (startup_args ext args0))
  /\ Forall (fun c => length c = 3%nat) (colors (startup_args ext args0))
  /\ (forall (i : nat) (p : Pred) (path : string) (t : Q)
             (loc loc' : locals) (st st' : state),
      save_img (startup_args ext args0) || view_img (startup_args ext args0)
        = true ->
      frame_body' i (Some p) path t (startup_args ext args0) loc st
        = (st', Ok loc') ->
      Forall2 (fun d o =>
                 py_index (colors (startup_args ext args0)) (snd d)
                 = Ok (o_color o))
        (zip3 (map round_box (boxes p)) (scores p) (labels p))
        (new_overlays st st')).
Proof.
  split; [apply make_colors_length |].
  split; [apply make_colors_triples |].
  intros i p path t loc loc' st st' Hflag H.
  destruct (frame_body_draws _ _ _ _ _ _ _ _ _ Hflag H) as (os & Hos & Hall).
  unfold new_overlays. rewrite Hos, drop_app_length.
  eapply Forall2_impl; [exact Hall |].
  intros d o Hd. apply Hd.
Qed.

(** ** Label text files (lines 47-51) *)

Lemma line_count_app (f g : list blob) :
  line_count (f ++ g) = (line_count f + line_count g)%nat.
Proof. induction f as [| b f IH]; simpl; [reflexivity | rewrite IH; lia]. Qed.

Lemma line_count_lines (dets : list (Box * Q * Z)) :
  line_count (map line_of' dets) = length dets.
Proof. induction dets as [| d r IH]; simpl; [reflexivity | now rewrite IH]. Qed.

(** With save_txt, a frame's detections each append one line to the text
    file of the source's stem. *)
Lemma save_txt_line_per_detection (dets : list (Box * Q * Z)) (path : string)
    (args : Args) (st st' : state) :
  save_txt args = true ->
  write_loop' dets path args st = (st', Ok tt) ->
  file_at st' (txt_file args path)
    = file_at st (txt_file args path) ++ map line_of' dets
  /\ line_count (file_at st' (txt_file args path))
     = (line_count (file_at st (txt_file args path)) + length dets)%nat.
Proof.
  intros Htxt H. pose proof (write_loop_lines _ _ _ _ _ Htxt H) as Hl.
  split; [exact Hl |].
  now rewrite Hl, line_count_app, line_count_lines.
Qed.

(** A second run over the same detections, with the output directory not
    cleared, doubles the lines of the first. *)
Lemma save_txt_twice_doubles (dets : list (Box * Q * Z)) (path : string)
    (args : Args) (st st1 st2 : state) (im2 : image) :
  save_txt args = true ->
  file_at st (txt_file args path) = [] ->
  write_loop' dets path args st = (st1, Ok tt) ->
  write_loop' dets path args (set_img im2 st1) = (st2, Ok tt) ->
  line_count (file_at st2 (txt_file args path))
  = (2 * line_count (file_at st1 (txt_file args path)))%nat.
Proof.
  intros Htxt Hempty H1 H2.
  destruct (save_txt_line_per_detection _ _ _ _ _ Htxt H1) as [_ Hc1].
  destruct (save_txt_line_per_detection _ _ _ _ _ Htxt H2) as [_ Hc2].
  rewrite Hempty in Hc1. simpl in Hc1.
  change (file_at (set_img im2 st1) (txt_file args path))
    with (file_at st1 (txt_file args path)) in Hc2.
  lia.
Qed.

(** C2, at the box (10,20,110,220): whatever [box_xyxy_to_cxcywh] is, the
    values line 51 writes are those it returns for the box alone, the same
    on a frame 200 wide and on one 100 wide, so they are not the normalized
    center form of the contract on both; the contract gives
    (0.3, 0.3, 0.5, 0.5) on the 200x400 frame, the center form of the box
    is (60, 120, 100, 200). *)
Theorem label_values_ignore_frame_size :
  (forall (sh : nat * nat) (px : nat),
     file_at
       (fst (frame_body' 0 (Some (sample_pred [2])) "imgs/bus.jpg" (1 # 100)
               (sample_args true false false "images") None
               {| fs := ∅; stdout := []; shown := []; key_polls := 0;
                  img := {| shape := sh; pixels := px; overlays := [] |} |}))
       "data-bin/output/bus.txt"
     = [TextData (label_line 2 (box_xyxy_to_cxcywh (round_box sample_box)))])
  /\ round_box sample_box = sample_box
  /\ ~ (cbox_eq (box_xyxy_to_cxcywh sample_box)
          (spec_normalize sample_box (200 # 1) (400 # 1))
        /\ cbox_eq (box_xyxy_to_cxcywh sample_box)
             (spec_normalize sample_box (100 # 1) (400 # 1)))
  /\ cbox_eq (spec_normalize sample_box (200 # 1) (400 # 1))
       {| cx := 3 # 10; cy := 3 # 10; bw := 1 # 2; bh := 1 # 2 |}
  /\ center_form (round_box sample_box)
     = {| cx := 60 # 1; cy := 120 # 1; bw := 100 # 1; bh := 200 # 1 |}.
Proof.
  split; [intros sh px; vm_compute; reflexivity |].
  split; [reflexivity |].
  split.
  - unfold cbox_eq. intros [(H1 & _) (H2 & _)].
    rewrite H1 in H2. vm_compute in H2. discriminate H2.
  - split; [| reflexivity].
    unfold cbox_eq. simpl. repeat split; reflexivity.
Qed.

(** C6, at one frame with two detections of the box (10,20,110,220),
    labels 2 and 5, save_txt set: the run appends one line per detection
    to data-bin/output/bus.txt and a second run doubles them, but the four
    values of a line are those [box_xyxy_to_cxcywh] returns for the box
    alone, the same on a frame 200 wide and on one 100 wide: the line is
    not normalized.  With the center form of the box it reads
    2 60 120 100 200. *)
Theorem label_lines_appended_not_normalized :
  file_at
    (fst (overlay_boxes' [Some (sample_pred [2; 5])] "imgs/bus.jpg" (1 # 100)
            (sample_args true false false "images") (sample_state 1)))
    "data-bin/output/bus.txt"
  = [TextData (label_line 2 (box_xyxy_to_cxcywh sample_box));
     TextData (label_line 5 (box_xyxy_to_cxcywh sample_box))]
  /\ file_at
       (fst (overlay_boxes' [Some (sample_pred [2; 5])] "imgs/bus.jpg" (1 # 100)
               (sample_args true false false "images")
               (set_img {| shape := (400%nat, 100%nat); pixels := 1;
                           overlays := [] |} (sample_state 1))))
       "data-bin/output/bus.txt"
     = [TextData (label_line 2 (box_xyxy_to_cxcywh sample_box));
        TextData (label_line 5 (box_xyxy_to_cxcywh sample_box))]
  /\ line_count
       (file_at
          (fst (overlay_boxes' [Some (sample_pred [2; 5])] "imgs/bus.jpg"
                  (1 # 100) (sample_args true false false "images")
                  (set_img (sample_frame 1)
                     (fst (overlay_boxes' [Some (sample_pred [2; 5])]
                             "imgs/bus.jpg" (1 # 100)
                             (sample_args true false false "images")
                             (sample_state 1))))))
          "data-bin/output/bus.txt")
     = 4%nat
  /\ label_line 2 (center_form sample_box)
     = [Num PctG (2 # 1); Lit " "; Num PctG (60 # 1); Lit " ";
        Num PctG (120 # 1); Lit " "; Num PctG (100 # 1); Lit " ";
        Num PctG (200 # 1); Lit " "; Lit (String "010"%char EmptyString)].
Proof.
  split; [vm_compute; reflexivity |].
  split; [vm_compute; reflexivity |].
  split; [vm_compute; reflexivity | reflexivity].
Qed.

(** ** The raster is only drawn on *)

Lemma drawn_on_refl (im : image) : drawn_on im im.
Proof.
  unfold drawn_on. repeat split. exists []. now rewrite app_nil_r.
Qed.

Lemma drawn_on_trans (a b c : image) :
  drawn_on a b -> drawn_on b c -> drawn_on a c.
Proof.
  unfold drawn_on. intros (H1 & H2 & os & H3) (H4 & H5 & os' & H6).
  repeat split; try congruence.
  exists (os ++ os'). now rewrite H6, H3, <- app_assoc.
Qed.

Lemma write_one_drawn_on (d : Box * Q * Z) (path : string) (args : Args)
    (st st' : state) (r : result unit) :
  write_one' d path args st = (st', r) -> drawn_on (img st) (img st').
Proof.
  destruct d as [[xyxy conf] cls].
  unfold write_one, bind, lift, ret, append_write, plot_one_box.
  destruct (save_txt args); destruct (save_img args || view_img args);
    simpl;
    try (destruct (py_index (names args) cls)); simpl;
    try (destruct (py_index (colors args) cls)); simpl;
    intros [= <- <-]; simpl; try apply drawn_on_refl;
    unfold drawn_on; simpl; repeat split; eexists; reflexivity.
Qed.

Lemma write_loop_drawn_on (dets : list (Box * Q * Z)) (path : string)
    (args : Args) (st st' : state) (r : result unit) :
  write_loop' dets path args st = (st', r) -> drawn_on (img st) (img st').
Proof.
  revert st. induction dets as [| d rest IH]; intros st; simpl.
  - unfold ret. intros [= <- <-]. apply drawn_on_refl.
  - unfold bind. destruct (write_one' d path args st) as [s1 r1] eqn:H1.
    apply write_one_drawn_on in H1. destruct r1 as [[] | e].
    + intros H2. apply IH in H2. eapply drawn_on_trans; eassumption.
    + now intros [= <- <-].
Qed.

Lemma frame_detections_image (pred : option Pred) (path : string)
    (args : Args) (s : text) (loc : locals) (st st' : state)
    (r : result (text * locals)) :
  frame_detections box_xyxy_to_cxcywh pred path args s loc st = (st', r) ->
  drawn_on (img st) (img st')
  /\ (save_img args || view_img args = false -> img st' = img st).
Proof.
  destruct pred as [p |]; unfold frame_detections; simpl.
  - unfold bind, lift, ret.
    destruct (summary_loop _ _ _ s) as [s1 | e].
    + destruct (write_loop' _ path args st) as [s2 r2] eqn:Hw.
      pose proof (write_loop_drawn_on _ _ _ _ _ _ Hw) as Hd.
      assert (Hn : save_img args || view_img args = false -> img s2 = img st).
      { intros Hf. now destruct (write_loop_no_draw _ _ _ _ _ _ Hf Hw). }
      destruct r2 as [[] | e]; intros [= <- <-]; now split.
    + intros [= <- <-]. split; [apply drawn_on_refl | reflexivity].
  - unfold ret. intros [= <- <-]. split; [apply drawn_on_refl | reflexivity].
Qed.

Lemma frame_body_image (i : nat) (pred : option Pred) (path : string)
    (t : Q) (args : Args) (loc : locals) (st st' : state) (r : result locals) :
  frame_body' i pred path t args loc st = (st', r) ->
  drawn_on (img st) (img st')
  /\ (save_img args || view_img args = false -> img st' = img st).
Proof.
  unfold frame_body, get_img. unfold bind at 1. unfold bind at 1.
  destruct (frame_detections _ pred path args _ loc st) as [s1 r1] eqn:Hd.
  apply frame_detections_image in Hd. destruct Hd as [Hd Hn].
  destruct r1 as [[s' l1] | e].
  - destruct (frame_tail_run s' t path args s1) as (s2 & Ht & _ & Hi & _).
    erewrite bind_ok by exact Ht. unfold ret. intros [= <- <-].
    rewrite Hi. now split.
  - intros [= <- <-]. now split.
Qed.

Lemma detections_loop_image (ds : list (option Pred)) (i : nat)
    (path : string) (t : Q) (args : Args) (loc : locals) (st st' : state)
    (r : result locals) :
  detections_loop' i ds path t args loc st = (st', r) ->
  drawn_on (img st) (img st')
  /\ (save_img args || view_img args = false -> img st' = img st).
Proof.
  revert i loc st. induction ds as [| pred rest IH]; intros i loc st; simpl.
  - unfold ret. intros [= <- <-]. split; [apply drawn_on_refl | reflexivity].
  - unfold bind.
    destruct (frame_body' i pred path t args loc st) as [s1 r1] eqn:Hb.
    apply frame_body_image in Hb. destruct Hb as [Hd Hn].
    destruct r1 as [l1 | e].
    + intros H. apply IH in H. destruct H as [Hd2 Hn2]. split.
      * eapply drawn_on_trans; eassumption.
      * intros Hf. rewrite Hn2, Hn by exact Hf. reflexivity.
    + intros [= <- <-]. now split.
Qed.

(** Whatever overlay_boxes does and however it ends, the raster keeps its
    shape and pixels and the overlays it had: boxes are only added. *)
Theorem raster_only_drawn_on (ds : list (option Pred)) (path : string)
    (t : Q) (args : Args) (st : state) :
  drawn_on (img st) (img (fst (overlay_boxes' ds path t args st))).
Proof.
  rewrite overlay_boxes_state.
  destruct (detections_loop' 0 ds path t args None st) as [s1 r1] eqn:H.
  simpl. now apply detections_loop_image in H.
Qed.

(** With save_txt, save_img and view_img all unset, overlay_boxes leaves
    the file system and the raster as they were: it only prints. *)
Theorem no_flags_only_prints (ds : list (option Pred)) (path : string)
    (t : Q) (args : Args) (st : state) :
  save_txt args = false -> save_img args = false -> view_img args = false ->
  fs (fst (overlay_boxes' ds path t args st)) = fs st
  /\ img (fst (overlay_boxes' ds path t args st)) = img st
  /\ screen_untouched st (fst (overlay_boxes' ds path t args st)).
Proof.
  intros Htxt Himg Hview.
  destruct (overlay_boxes_frame ds path t args st) as [Hscreen Hfs].
  split; [| split; [| exact Hscreen]].
  - apply Hfs; [now rewrite Himg | exact Htxt].
  - rewrite overlay_boxes_state.
    destruct (detections_loop' 0 ds path t args None st) as [s1 r1] eqn:H.
    simpl. apply detections_loop_image in H. apply H.
    now rewrite Himg, Hview.
Qed.

(** ** The locals, the printed lines and the exceptions of overlay_boxes *)

Lemma frame_body_ok_facts (i : nat) (pred : option Pred) (path : string)
    (t : Q) (args : Args) (loc loc' : locals) (st st' : state) :
  frame_body' i pred path t args loc st = (st', Ok loc') ->
  loc' = match pred with Some p => Some (bound_by p) | None => loc end
  /\ exists s, stdout st' = stdout st ++ [done_line s t].
Proof.
  intros H. apply frame_body_ok_inv in H. destruct H as (s1 & s' & Hd & Ht).
  destruct (frame_tail_run s' t path args s1) as (s2 & Ht2 & Hout & _).
  rewrite Ht in Ht2. injection Ht2 as <-.
  pose proof (frame_detections_frame _ _ _ _ _ _ _ _ Hd) as (Ho & _).
  split.
  - destruct pred as [p |].
    + now apply frame_detections_ok_inv in Hd.
    + unfold frame_detections, ret in Hd. now injection Hd.
  - exists s'. now rewrite Hout, Ho.
Qed.

Lemma frame_body_raises (i : nat) (pred : option Pred) (path : string)
    (t : Q) (args : Args) (loc : locals) (st st' : state) (e : exn) :
  frame_body' i pred path t args loc st = (st', Raise e) ->
  e = IndexError "list index out of range".
Proof.
  unfold frame_body, get_img. unfold bind at 1. unfold bind at 1.
  destruct (frame_detections _ pred path args _ loc st) as [s1 r1] eqn:Hd.
  apply frame_detections_frame in Hd.
  destruct Hd as (_ & _ & _ & _ & _ & _ & He).
  destruct r1 as [[s' l1] | e1].
  - destruct (frame_tail_run s' t path args s1) as (s2 & Ht & _).
    erewrite bind_ok by exact Ht. unfold ret. discriminate.
  - intros [= _ <-]. now apply He.
Qed.

Lemma detections_loop_ok_facts (ds : list (option Pred)) (i : nat)
    (path : string) (t : Q) (args : Args) (loc loc' : locals)
    (st st' : state) :
  detections_loop' i ds path t args loc st = (st', Ok loc') ->
  loc' = final_locals ds loc
  /\ exists ls, stdout st' = stdout st ++ ls
       /\ length ls = length ds
       /\ Forall (fun l => exists s, l = done_line s t) ls.
Proof.
  revert i loc st. induction ds as [| pred rest IH]; intros i loc st; simpl.
  - unfold ret. intros [= <- <-]. split; [reflexivity |].
    exists []. rewrite app_nil_r. repeat split. constructor.
  - intros H. apply bind_inv_ok in H. destruct H as (s1 & l1 & Hb & Hr).
    apply frame_body_ok_facts in Hb. destruct Hb as (-> & s & Hout).
    apply IH in Hr. destruct Hr as (-> & ls & Hls & Hlen & Hall).
    split; [now destruct pred |].
    exists (done_line s t :: ls). split; [| split].
    + rewrite Hls, Hout, <- app_assoc. reflexivity.
    + simpl. now rewrite Hlen.
    + constructor; [now exists s | exact Hall].
Qed.

Lemma detections_loop_raises (ds : list (option Pred)) (i : nat)
    (path : string) (t : Q) (args : Args) (loc : locals) (st st' : state)
    (e : exn) :
  detections_loop' i ds path t args loc st = (st', Raise e) ->
  e = IndexError "list index out of range".
Proof.
  revert i loc st. induction ds as [| pred rest IH]; intros i loc st; simpl.
  - unfold ret. discriminate.
  - unfold bind.
    destruct (frame_body' i pred path t args loc st) as [s1 [l1 | e1]] eqn:Hb.
    + apply IH.
    + intros [= _ <-]. now apply frame_body_raises in Hb.
Qed.

Lemma final_locals_some (ds : list (option Pred))
    (x : list Box * list Q * list Z) :
  final_locals ds (Some x) <> None.
Proof.
  revert x. induction ds as [| [p |] rest IH]; intros x; simpl;
    [discriminate | apply IH | apply IH].
Qed.

Lemma final_locals_none (ds : list (option Pred)) :
  final_locals ds None = None -> Forall (fun d => d = None) ds.
Proof.
  induction ds as [| [p |] rest IH]; simpl; intros H.
  - constructor.
  - now apply final_locals_some in H.
  - constructor; [reflexivity | now apply IH].
Qed.

(** When overlay_boxes returns, it returns the rounded boxes, the scores
    and the labels of the last prediction that is not [None], also when
    predictions that are [None] follow it; and it has printed one timing
    line per prediction. *)
Theorem overlay_boxes_returns_last_prediction (ds : list (option Pred))
    (path : string) (t : Q) (args : Args) (st st' : state)
    (r : list Box * list Q * list Z) :
  overlay_boxes' ds path t args st = (st', Ok r) ->
  final_locals ds None = Some r
  /\ exists ls, stdout st' = stdout st ++ ls
       /\ length ls = length ds
       /\ Forall (fun l => exists s, l = done_line s t) ls.
Proof.
  unfold overlay_boxes. intros H. apply bind_inv_ok in H.
  destruct H as (s1 & l1 & Hd & Hr).
  apply detections_loop_ok_facts in Hd. destruct Hd as (-> & Hout).
  destruct (final_locals ds None) as [x |]; [| discriminate].
  unfold ret in Hr. injection Hr as <- <-. now split.
Qed.

Lemma skipped_none (ds : list (option Pred)) :
  Forall skipped ds <-> Forall (fun d => d = None) ds.
Proof.
  split; intros H; eapply Forall_impl; try exact H.
  - intros [p |] Hs; [discriminate Hs | reflexivity].
  - now intros d ->.
Qed.

Lemma final_locals_all_none (ds : list (option Pred)) (loc : locals) :
  Forall (fun d => d = None) ds -> final_locals ds loc = loc.
Proof.
  intros H. revert loc.
  induction H as [| d r -> _ IH]; intros loc; [reflexivity | apply IH].
Qed.

(** The UnboundLocalError of line 64 is raised only when the guard of
    line 36 skipped every prediction, so that line 38 never bound the
    locals; and when every prediction is skipped the call does not
    return. *)
Theorem unbound_locals_when_all_skipped (ds : list (option Pred))
    (path : string) (t : Q) (args : Args) (st : state) :
  (forall (st' : state) (name : string),
     overlay_boxes' ds path t args st = (st', Raise (UnboundLocalError name)) ->
     name = "boxes" /\ Forall skipped ds)
  /\ (Forall skipped ds ->
      is_ok (snd (overlay_boxes' ds path t args st)) = false).
Proof.
  unfold overlay_boxes, bind.
  destruct (detections_loop' 0 ds path t args None st) as [s1 [l1 | e1]] eqn:Hd.
  - apply detections_loop_ok_facts in Hd. destruct Hd as (-> & _). split.
    + destruct (final_locals ds None) as [x |] eqn:Hf; [discriminate |].
      unfold raise. intros st' name [= _ <-]. split; [reflexivity |].
      now apply skipped_none, final_locals_none.
    + intros Hs. apply skipped_none in Hs.
      now rewrite (final_locals_all_none ds None Hs).
  - apply detections_loop_raises in Hd. subst e1. split.
    + discriminate.
    + reflexivity.
Qed.

(** ** Rounding and truncation (lines 38 and 46) *)

Lemma round_half_even_close (q : Q) :
  (Qabs (q - inject_Z (round_half_even q)) <= 1 # 2)%Q.
Proof.
  unfold round_half_even.
  pose proof (Qfloor_le q) as Hlo. pose proof (Qlt_floor q) as Hhi.
  rewrite inject_Z_plus in Hhi. change (inject_Z 1) with 1%Q in Hhi.
  apply Qabs_Qle_condition.
  destruct (Qcompare (q - inject_Z (Qfloor q)) (1 # 2)) eqn:Hc.
  - apply Qeq_alt in Hc.
    destruct (Z.even (Qfloor q));
      [| rewrite inject_Z_plus; change (inject_Z 1) with 1%Q]; lra.
  - apply Qlt_alt in Hc. lra.
  - apply Qgt_alt in Hc. rewrite inject_Z_plus.
    change (inject_Z 1) with 1%Q. lra.
Qed.

Lemma round_box_close (b : Box) : within_half_pixel b (round_box b).
Proof. unfold within_half_pixel, round_box. simpl. repeat split; apply round_half_even_close. Qed.

Lemma round_box_whole (b : Box) : whole_box (round_box b).
Proof. unfold whole_box, round_box. repeat eexists. Qed.

Lemma zip3_In (bs : list Box) (ss : list Q) (ls : list Z) (d : Box * Q * Z) :
  In d (zip3 bs ss ls) ->
  In (fst (fst d)) bs /\ In (snd (fst d)) ss /\ In (snd d) ls.
Proof.
  revert ss ls. induction bs as [| b bs IH]; intros [| s ss] [| l ls]; simpl;
    try tauto.
  intros [<- | Hin]; simpl; [tauto |].
  apply IH in Hin. tauto.
Qed.

Lemma zip3_length (bs : list Box) (ss : list Q) (ls : list Z) :
  length (zip3 bs ss ls)
  = Nat.min (length bs) (Nat.min (length ss) (length ls)).
Proof.
  revert ss ls. induction bs as [| b bs IH]; intros [| s ss] [| l ls]; simpl;
    try reflexivity.
  now rewrite IH.
Qed.

Lemma Forall2_exists_left {A B : Type} (R : A -> B -> Prop) (l1 : list A)
    (l2 : list B) :
  Forall2 R l1 l2 -> Forall (fun y => exists x, In x l1 /\ R x y) l2.
Proof.
  induction 1 as [| x y l1 l2 Hxy _ IH]; constructor.
  - exists x. split; [now left | exact Hxy].
  - eapply Forall_impl; [exact IH |].
    intros y' (x' & Hin & HR). exists x'. split; [now right | exact HR].
Qed.

(** Every box drawn on a processed frame has whole coordinates: it is the
    rounding of a box of the prediction, each coordinate within half a
    pixel of the detector's. *)
Theorem drawn_boxes_are_rounded (i : nat) (p : Pred) (path : string) (t : Q)
    (args : Args) (loc loc' : locals) (st st' : state) :
  save_img args || view_img args = true ->
  frame_body' i (Some p) path t args loc st = (st', Ok loc') ->
  Forall (fun o =>
            whole_box (o_box o)
            /\ exists b, In b (boxes p) /\ o_box o = round_box b
                         /\ within_half_pixel b (o_box o))
    (new_overlays st st').
Proof.
  intros Hflag H.
  destruct (frame_body_draws _ _ _ _ _ _ _ _ _ Hflag H) as (os & Hos & Hall).
  unfold new_overlays. rewrite Hos, drop_app_length.
  apply Forall2_exists_left in Hall.
  eapply Forall_impl; [exact Hall |].
  intros o (d & Hin & Hbox & _). simpl in Hbox.
  apply zip3_In in Hin. destruct Hin as (Hb & _).
  apply in_map_iff in Hb. destruct Hb as (b & Hb & Hin).
  rewrite Hbox, <- Hb. split; [apply round_box_whole |].
  exists b. split; [exact Hin |]. split; [reflexivity | apply round_box_close].
Qed.

(** A processed frame draws, and with save_txt writes, as many detections
    as the shortest of the three tensors holds: zip stops there, whatever
    the class summary counted. *)
Theorem detections_stop_at_shortest_tensor (i : nat) (p : Pred)
    (path : string) (t : Q) (args : Args) (loc loc' : locals)
    (st st' : state) :
  frame_body' i (Some p) path t args loc st = (st', Ok loc') ->
  (save_img args || view_img args = true ->
   length (new_overlays st st')
   = Nat.min (length (boxes p))
       (Nat.min (length (scores p)) (length (labels p))))
  /\ (save_txt args = true ->
      txt_file args path <> save_file args path ->
      line_count (file_at st' (txt_file args path))
      = (line_count (file_at st (txt_file args path))
         + Nat.min (length (boxes p))
             (Nat.min (length (scores p)) (length (labels p))))%nat).
Proof.
  intros H. split.
  - intros Hflag.
    destruct (frame_body_draws _ _ _ _ _ _ _ _ _ Hflag H) as (os & Hos & Hall).
    unfold new_overlays. rewrite Hos, drop_app_length.
    apply Forall2_length in Hall. rewrite <- Hall, zip3_length, length_map.
    reflexivity.
  - intros Htxt Hne. apply frame_body_ok_inv in H.
    destruct H as (s1 & s' & Hd & Ht).
    apply frame_detections_ok_inv in Hd. destruct Hd as (_ & Hw & _).
    destruct (save_txt_line_per_detection _ _ _ _ _ Htxt Hw) as [_ Hc].
    destruct (frame_tail_run s' t path args s1) as (s2 & Ht2 & _ & _ & _ & Hf).
    rewrite Ht in Ht2. injection Ht2 as <-.
    assert (Hsame : file_at st' (txt_file args path)
                    = file_at s1 (txt_file args path)).
    { unfold file_at. rewrite Hf.
      destruct (save_img args && String.eqb (mode args) "images");
        [now rewrite lookup_insert_ne by congruence | reflexivity]. }
    rewrite Hsame, Hc, zip3_length, length_map. reflexivity.
Qed.

(** ** What a call that returns has seen *)

Lemma summary_loop_ok_valid (cs lbls : list Z) (nms : list string)
    (s s' : text) (c : Z) :
  summary_loop cs lbls nms s = Ok s' -> In c cs -> valid_label nms c.
Proof.
  intros H Hin. unfold valid_label.
  destruct (Z_le_gt_dec (- Z.of_nat (length nms)) c) as [Hlo | Hlo];
    destruct (Z_lt_ge_dec c (Z.of_nat (length nms))) as [Hhi | Hhi];
    [lia | | |];
    rewrite (summary_loop_invalid _ _ _ _ c Hin) in H
      by (unfold valid_label; lia);
    discriminate H.
Qed.

Lemma summary_loop_prefix (cs lbls : list Z) (nms : list string)
    (s s' : text) :
  summary_loop cs lbls nms s = Ok s' -> exists x, s' = s ++ x.
Proof.
  revert s. induction cs as [| c r IH]; intros s; simpl.
  - intros [= <-]. exists []. now rewrite app_nil_r.
  - destruct (py_index nms c) as [nm | e]; [| discriminate].
    intros H. apply IH in H. destruct H as [x ->].
    eexists. rewrite <- app_assoc. reflexivity.
Qed.

Lemma frame_body_ok_valid (i : nat) (p : Pred) (path : string) (t : Q)
    (args : Args) (loc loc' : locals) (st st' : state) (c : Z) :
  frame_body' i (Some p) path t args loc st = (st', Ok loc') ->
  In c (labels p) -> valid_label (names args) c.
Proof.
  intros H Hin. apply frame_body_ok_inv in H.
  destruct H as (s1 & s' & Hd & _).
  apply frame_detections_ok_inv in Hd. destruct Hd as (Hs & _).
  eapply summary_loop_ok_valid; [exact Hs | now apply unique_In].
Qed.

Lemma detections_loop_ok_valid (ds : list (option Pred)) (i : nat)
    (path : string) (t : Q) (args : Args) (loc loc' : locals)
    (st st' : state) :
  detections_loop' i ds path t args loc st = (st', Ok loc') ->
  labels_valid (names args) ds.
Proof.
  revert i loc st. induction ds as [| pred rest IH]; intros i loc st; simpl.
  - intros _ p c [].
  - intros H. apply bind_inv_ok in H. destruct H as (s1 & l1 & Hb & Hr).
    intros p c [-> | Hp] Hc.
    + eapply frame_body_ok_valid; eassumption.
    + eapply IH; eassumption.
Qed.

Lemma final_locals_of (ds : list (option Pred))
    (r : list Box * list Q * list Z) :
  final_locals ds None = Some r ->
  exists p, In (Some p) ds /\ r = bound_by p.
Proof.
  assert (H : forall loc,
             final_locals ds loc = Some r ->
             loc = Some r \/ exists p, In (Some p) ds /\ r = bound_by p).
  { induction ds as [| [q |] rest IH]; intros loc; simpl.
    - now left.
    - intros Hf. right. destruct (IH _ Hf) as [[= <-] | (p & Hp & ->)].
      + exists q. split; [now left | reflexivity].
      + exists p. split; [now right | reflexivity].
    - intros Hf. destruct (IH _ Hf) as [-> | (p & Hp & ->)]; [now left |].
      right. exists p. split; [now right | reflexivity]. }
  intros Hf. destruct (H None Hf) as [[=] | Hp]. exact Hp.
Qed.

(** A call of overlay_boxes that returns had only labels that index a
    class name, in every prediction, and returns the tensors of one of its
    predictions: it does not return for a list of skipped predictions. *)
Theorem overlay_boxes_returns_only_if (ds : list (option Pred))
    (path : string) (t : Q) (args : Args) (st st' : state)
    (r : list Box * list Q * list Z) :
  overlay_boxes' ds path t args st = (st', Ok r) ->
  labels_valid (names args) ds
  /\ exists p, In (Some p) ds /\ r = bound_by p.
Proof.
  unfold overlay_boxes. intros H. apply bind_inv_ok in H.
  destruct H as (s1 & l1 & Hd & Hr).
  pose proof (detections_loop_ok_valid _ _ _ _ _ _ _ _ _ Hd) as Hv.
  apply detections_loop_ok_facts in Hd. destruct Hd as (-> & _).
  destruct (final_locals ds None) as [x |] eqn:Hf; [| discriminate].
  unfold ret in Hr. injection Hr as _ <-.
  split; [exact Hv | now apply final_locals_of].
Qed.

(** ** What a failure leaves behind *)

Lemma detections_loop_app (ds1 ds2 : list (option Pred)) (i : nat)
    (path : string) (t : Q) (args : Args) (loc : locals) (st : state) :
  detections_loop' i (ds1 ++ ds2) path t args loc st
  = bind (detections_loop' i ds1 path t args loc)
      (fun loc' => detections_loop' (i + length ds1) ds2 path t args loc') st.
Proof.
  revert i loc st. induction ds1 as [| pred rest IH]; intros i loc st; simpl.
  - unfold bind, ret. now rewrite Nat.add_0_r.
  - unfold bind.
    destruct (frame_body' i pred path t args loc st) as [s1 [l1 | e]];
      [| reflexivity].
    rewrite IH. unfold bind. now rewrite Nat.add_succ_r.
Qed.

(** overlay_boxes is not atomic over the predictions: when the loop gets
    through the predictions [ds1] (the call on them returns, or raises the
    UnboundLocalError of line 64) and the next prediction has a label that
    indexes no class name, the call stops with IndexError in exactly the
    state the predictions [ds1] left, their printed lines, label lines and
    images kept; nothing is output for the failing prediction or for
    those after it. *)
Theorem failure_keeps_earlier_output (ds1 ds2 : list (option Pred)) (p : Pred)
    (c : Z) (path : string) (t : Q) (args : Args) (st : state) :
  is_ok (snd (overlay_boxes' ds1 path t args st)) = true
  \/ snd (overlay_boxes' ds1 path t args st) = Raise (UnboundLocalError "boxes") ->
  In c (labels p) ->
  ~ valid_label (names args) c ->
  overlay_boxes' (ds1 ++ Some p :: ds2) path t args st
  = (fst (overlay_boxes' ds1 path t args st),
     Raise (IndexError "list index out of range")).
Proof.
  intros Hok Hin Hbad. rewrite overlay_boxes_state.
  unfold overlay_boxes in *. unfold bind at 1. rewrite detections_loop_app.
  unfold bind at 1. unfold bind in Hok.
  destruct (detections_loop' 0 ds1 path t args None st) as [s1 [l1 | e]] eqn:Hd.
  - simpl. unfold bind at 1. unfold frame_body, get_img. unfold bind at 1.
    erewrite bind_raise; [reflexivity |].
    now apply (frame_detections_invalid _ _ _ _ _ _ c).
  - apply detections_loop_raises in Hd. subst e. simpl in Hok.
    destruct Hok; discriminate.
Qed.

(** A label that indexes a class name but no color stops the frame at
    line 55 after line 51 has run: with save_txt and a drawing flag set,
    the frame ends in IndexError with the label line of that detection
    appended to the text file, nothing drawn and nothing printed. *)
Theorem label_line_survives_color_error (i : nat) (b : Box) (s : Q) (c : Z)
    (bs : list Box) (ss : list Q) (ls : list Z) (path : string) (t : Q)
    (args : Args) (loc : locals) (st : state) :
  save_txt args = true ->
  save_img args || view_img args = true ->
  (forall c', In c' (c :: ls) -> valid_label (names args) c') ->
  ~ has_color (colors args) c ->
  exists st',
    frame_body' i (Some (mkPred (b :: bs) (s :: ss) (c :: ls))) path t args
      loc st
    = (st', Raise (IndexError "list index out of range"))
    /\ file_at st' (txt_file args path)
       = file_at st (txt_file args path) ++ [line_of' (round_box b, s, c)]
    /\ img st' = img st
    /\ stdout st' = stdout st.
Proof.
  intros Htxt Hflag Hv Hbad.
  destruct (py_index_valid (names args) c) as [nm Hnm]; [apply Hv; now left |].
  pose proof (py_index_invalid (colors args) c Hbad) as Hcol.
  set (st1 := set_fs (<[txt_file args path :=
                          file_at st (txt_file args path)
                          ++ [line_of' (round_box b, s, c)]]> (fs st)) st).
  assert (H1 : write_one' (round_box b, s, c) path args st
               = (st1, Raise (IndexError "list index out of range"))).
  { unfold write_one. rewrite Htxt, Hflag.
    erewrite bind_ok by (unfold append_write; reflexivity).
    erewrite bind_ok by (unfold lift; rewrite Hnm; reflexivity).
    erewrite bind_raise; [reflexivity |].
    unfold lift. rewrite Hcol. reflexivity. }
  exists st1. split; [| split; [apply file_at_insert_eq | split; reflexivity]].
  unfold frame_body.
  erewrite bind_ok by (unfold get_img; reflexivity).
  erewrite bind_raise; [reflexivity |].
  unfold frame_detections.
  change (Nat.ltb 0 (pred_len _)) with true. cbv iota.
  erewrite bind_ok; cycle 1.
  { unfold lift. rewrite summary_loop_valid; [reflexivity |].
    intros c' Hc'. apply Hv. now apply unique_In. }
  erewrite bind_raise; [reflexivity |].
  cbn [boxes scores labels map zip3 write_loop].
  erewrite bind_raise; [reflexivity | exact H1].
Qed.

(** ** The timing lines (lines 31, 34 and 58) *)

Lemma frame_header_shape (i : nat) (args : Args) (im im' : image) :
  shape im' = shape im -> frame_header i args im' = frame_header i args im.
Proof. unfold frame_header. now intros ->. Qed.

Lemma frame_body_line (i : nat) (pred : option Pred) (path : string)
    (t : Q) (args : Args) (loc loc' : locals) (st st' : state) :
  frame_body' i pred path t args loc st = (st', Ok loc') ->
  shape (img st') = shape (img st)
  /\ exists x,
       stdout st' = stdout st ++ [done_line (frame_header i args (img st) ++ x) t].
Proof.
  intros H. pose proof (frame_body_frame _ _ _ _ _ _ _ _ _ H) as (_ & Hsh & _).
  split; [exact Hsh |].
  apply frame_body_ok_inv in H. destruct H as (s1 & s' & Hd & Ht).
  destruct (frame_tail_run s' t path args s1) as (s2 & Ht2 & Hout & _).
  rewrite Ht in Ht2. injection Ht2 as <-.
  pose proof (frame_detections_frame _ _ _ _ _ _ _ _ Hd) as (Ho & _).
  rewrite Hout, Ho.
  destruct pred as [p |].
  - apply frame_detections_ok_inv in Hd. destruct Hd as (Hs & _).
    apply summary_loop_prefix in Hs. destruct Hs as [x ->]. now exists x.
  - unfold frame_detections, ret in Hd. injection Hd as _ <- _.
    exists []. now rewrite app_nil_r.
Qed.

Lemma detections_loop_lines (ds : list (option Pred)) (i : nat)
    (path : string) (t : Q) (args : Args) (loc loc' : locals)
    (st st' : state) :
  detections_loop' i ds path t args loc st = (st', Ok loc') ->
  exists ls,
    stdout st' = stdout st ++ ls
    /\ length ls = length ds
    /\ forall k l, ls !! k = Some l ->
         exists x, l = done_line (frame_header (i + k) args (img st) ++ x) t.
Proof.
  revert i loc st. induction ds as [| pred rest IH]; intros i loc st; simpl.
  - unfold ret. intros [= <- <-]. exists []. rewrite app_nil_r.
    repeat split. intros k l Hk. discriminate Hk.
  - intros H. apply bind_inv_ok in H. destruct H as (s1 & l1 & Hb & Hr).
    apply frame_body_line in Hb. destruct Hb as (Hsh & x & Hout).
    apply IH in Hr. destruct Hr as (ls & Hls & Hlen & Hall).
    exists (done_line (frame_header i args (img st) ++ x) t :: ls).
    split; [| split].
    + rewrite Hls, Hout, <- app_assoc. reflexivity.
    + simpl. now rewrite Hlen.
    + intros [| k] l Hk; simpl in Hk.
      * injection Hk as <-. exists x. now rewrite Nat.add_0_r.
      * destruct (Hall k l Hk) as [y ->]. exists y.
        rewrite (frame_header_shape _ _ _ _ Hsh).
        now rewrite Nat.add_succ_r.
Qed.

(** When overlay_boxes returns, the timing line of the k-th prediction
    starts with the header of that prediction: its index k when
    args.webcam is set, then the two dimensions the raster had when the
    call began. *)
Theorem timing_lines_carry_index_and_shape (ds : list (option Pred))
    (path : string) (t : Q) (args : Args) (st st' : state)
    (r : list Box * list Q * list Z) :
  overlay_boxes' ds path t args st = (st', Ok r) ->
  exists ls,
    stdout st' = stdout st ++ ls
    /\ length ls = length ds
    /\ forall k l, ls !! k = Some l ->
         exists x,
           l = ((if webcam args then [Num PctG (of_nat k); Lit ": "] else [])
                ++ [Num PctG (of_nat (fst (shape (img st)))); Lit "x";
                    Num PctG (of_nat (snd (shape (img st)))); Lit " "])
               ++ x ++ [Lit "Done. ("; Num Pct3f t; Lit "s)"].
Proof.
  unfold overlay_boxes. intros H. apply bind_inv_ok in H.
  destruct H as (s1 & l1 & Hd & Hr).
  apply detections_loop_lines in Hd. destruct Hd as (ls & Hls & Hlen & Hall).
  destruct l1 as [r' |]; [| discriminate].
  unfold ret in Hr. injection Hr as <- _.
  exists ls. split; [exact Hls |]. split; [exact Hlen |].
  intros k l Hk. destruct (Hall k l Hk) as [x ->]. exists x.
  unfold done_line, frame_header. simpl. now rewrite <- app_assoc.
Qed.

(** ** The files overlay_boxes touches *)

Lemma frame_body_footprint (i : nat) (pred : option Pred) (path : string)
    (t : Q) (args : Args) (loc : locals) (st st' : state) (r : result locals) :
  frame_body' i pred path t args loc st = (st', r) ->
  forall q, q <> txt_file args path -> q <> save_file args path ->
    fs st' !! q = fs st !! q.
Proof.
  unfold frame_body, get_img. unfold bind at 1. unfold bind at 1.
  destruct (frame_detections _ pred path args _ loc st) as [s1 r1] eqn:Hd.
  apply frame_detections_frame in Hd.
  destruct Hd as (_ & _ & _ & _ & Hfs & _).
  destruct r1 as [[s' l1] | e].
  - destruct (frame_tail_run s' t path args s1) as (s2 & Ht & _ & _ & _ & Hf2).
    erewrite bind_ok by exact Ht. unfold ret. intros [= <- <-] q Hq1 Hq2.
    rewrite Hf2.
    destruct (save_img args && String.eqb (mode args) "images");
      [rewrite lookup_insert_ne by congruence |]; now apply Hfs.
  - intros [= <- <-] q Hq1 _. now apply Hfs.
Qed.

Lemma detections_loop_footprint (ds : list (option Pred)) (i : nat)
    (path : string) (t : Q) (args : Args) (loc : locals) (st st' : state)
    (r : result locals) :
  detections_loop' i ds path t args loc st = (st', r) ->
  forall q, q <> txt_file args path -> q <> save_file args path ->
    fs st' !! q = fs st !! q.
Proof.
  revert i loc st. induction ds as [| pred rest IH]; intros i loc st; simpl.
  - unfold ret. now intros [= <- <-].
  - unfold bind.
    destruct (frame_body' i pred path t args loc st) as [s1 [l1 | e]] eqn:Hb;
      pose proof (frame_body_footprint _ _ _ _ _ _ _ _ _ Hb) as Hf.
    + intros H q Hq1 Hq2. rewrite (IH _ _ _ H q Hq1 Hq2). now apply Hf.
    + intros [= <- <-]. exact Hf.
Qed.

(** However it ends, a call of overlay_boxes leaves every file other than
    the label file and the image file of its source as it was. *)
Theorem overlay_boxes_touches_two_files (ds : list (option Pred))
    (path : string) (t : Q) (args : Args) (st : state) (q : string) :
  q <> txt_file args path ->
  q <> save_file args path ->
  fs (fst (overlay_boxes' ds path t args st)) !! q = fs st !! q.
Proof.
  intros Hq1 Hq2. rewrite overlay_boxes_state.
  destruct (detections_loop' 0 ds path t args None st) as [s1 r1] eqn:H.
  simpl. eapply detections_loop_footprint; eassumption.
Qed.

End PipelineFacts.

(** * Concrete runs *)

Example path_name_ex : path_name (Path "imgs/bus.jpg") = "bus.jpg".
Proof. reflexivity. Qed.

Example path_stem_ex : path_stem (Path "imgs/bus.tar.gz") = "bus.tar".
Proof. reflexivity. Qed.

Example save_file_ex :
  save_file (sample_args false true false "images") "imgs/bus.jpg"
  = "data-bin/output/bus.jpg".
Proof. reflexivity. Qed.

Example txt_file_ex :
  txt_file (sample_args true false false "images") "imgs/bus.jpg"
  = "data-bin/output/bus.txt".
Proof. reflexivity. Qed.

Example round_half_even_ex :
  map round_half_even [5 # 2; 7 # 2; -5 # 2; 26 # 10; -26 # 10]
  = [2; 4; -2; 3; -3].
Proof. reflexivity. Qed.

Example get_coco_names_ex :
  get_coco_names (category_file sample_ext) = ["person"; "bicycle"; "car"].
Proof. reflexivity. Qed.

(** A carriage return alone ends a line, and the separators 28-31 are
    stripped like blanks. *)
Example get_coco_names_line_ends_ex :
  get_coco_names
    ("person" +:+ String "013" (String "031" " car " +:+ String "028"
       (String "010" EmptyString)))
  = ["person"; "car"].
Proof. reflexivity. Qed.

Example path_str_two_slashes_ex :
  path_str (joinpath (Path "//srv/out") "bus.jpg") = "//srv/out/bus.jpg"
  /\ path_str (joinpath (Path "///srv/out") "bus.jpg") = "/srv/out/bus.jpg".
Proof. split; reflexivity. Qed.

Example unique_ex : unique [5; 2; 5; 3; 2] = [2; 3; 5].
Proof. reflexivity. Qed.

(** C1 at a frame source of one frame; and with an [inference] bound. *)
Lemma main_raises_on_first_frame_witness :
  ds_frames sample_ext
    = [mkFrame "imgs/bus.jpg" (sample_frame 2) (sample_frame 1) None]
  /\ main (module_globals center_form) sample_ext
       (sample_args true true false "") (sample_state 1)
     = (set_stdout [[Repr (sample_args true true false "")]] (sample_state 1),
        Raise (NameError "inference"))
  /\ loop_body (("inference", Callable sample_inference)
                  :: module_globals center_form)
       (startup_args sample_ext (sample_args true true false ""))
       (mkFrame "imgs/bus.jpg" (sample_frame 2) (sample_frame 1) None)
       (sample_state 1)
     = (sample_state 1,
        Raise (TypeError "wrong number of positional arguments")).
Proof.
  destruct (main_raises_on_first_frame center_form sample_ext
              (sample_args true true false "") (sample_state 1)
              (mkFrame "imgs/bus.jpg" (sample_frame 2) (sample_frame 1) None)
              [] eq_refl) as (_ & Hmain & _ & Hcall).
  split; [reflexivity |].
  split; [exact Hmain |].
  apply (Hcall sample_inference (sample_state 1) (sample_state 1)
           (VDetections [Some (sample_pred [2])]) (VFloat (1 # 100)));
    reflexivity.
Defined.

(** C4: labels [5,2] are listed as 2 then 5, not in the order they are
    first encountered. *)
Lemma summary_not_in_first_encounter_order :
  first_encounter [5; 2] = [5; 2]
  /\ unique [5; 2] = [2; 5]
  /\ stdout
       (fst (frame_body center_form 0 (Some (sample_pred [5; 2]))
               "imgs/bus.jpg" (1 # 100)
               (sample_args false false false "images") None (sample_state 1)))
     = [[Num PctG (400 # 1); Lit "x"; Num PctG (200 # 1); Lit " ";
         Num PctG (1 # 1); Lit " "; Lit "car"; Lit "s, ";
         Num PctG (1 # 1); Lit " "; Lit "bus"; Lit "s, ";
         Lit "Done. ("; Num Pct3f (1 # 100); Lit "s)"]]
  /\ summary_loop (unique [5; 2]) [5; 2] coco6 []
     <> summary_loop (first_encounter [5; 2]) [5; 2] coco6 [].
Proof.
  split; [reflexivity |].
  split; [reflexivity |].
  split; [vm_compute; reflexivity |].
  vm_compute. discriminate.
Qed.

(** C4, amended, at the labels [2,2,5]. *)
Lemma summary_in_ascending_label_order_witness :
  (forall c, In c [2; 2; 5] -> valid_label coco6 c)
  /\ summary_loop (unique [2; 2; 5]) [2; 2; 5] coco6 []
     = Ok [Num PctG (2 # 1); Lit " "; Lit "car"; Lit "s, ";
           Num PctG (1 # 1); Lit " "; Lit "bus"; Lit "s, "].
Proof.
  assert (Hv : forall c, In c [2; 2; 5] -> valid_label coco6 c).
  { intros c Hc. simpl in Hc. unfold valid_label. simpl.
    destruct Hc as [<- | [<- | [<- | []]]]; lia. }
  split; [exact Hv |].
  exact (proj1 (summary_in_ascending_label_order [2; 2; 5] coco6 [] Hv)).
Defined.

(** C5 at a frame with the labels 2 and 80 under six class names. *)
Lemma invalid_label_is_fatal_witness :
  In 80 (labels (sample_pred [2; 80]))
  /\ Z.of_nat (length (names (sample_args true true false "images"))) <= 80
  /\ overlay_boxes center_form [Some (sample_pred [2; 80])] "imgs/bus.jpg"
       (1 # 100) (sample_args true true false "images") (sample_state 1)
     = (sample_state 1, Raise (IndexError "list index out of range")).
Proof.
  assert (Hin : In 80 (labels (sample_pred [2; 80]))) by (simpl; auto).
  assert (Hc : Z.of_nat (length (names (sample_args true true false "images")))
               <= 80) by (simpl; lia).
  split; [exact Hin |]. split; [exact Hc |].
  exact (proj2 (invalid_label_is_fatal center_form 0 (sample_pred [2; 80])
                  "imgs/bus.jpg" (1 # 100)
                  (sample_args true true false "images") None
                  (sample_state 1) 80 Hin Hc)).
Defined.

(** C7: in video mode with save_img, a processed frame is drawn on in
    memory and nothing is persisted. *)
Lemma video_frame_not_persisted :
  is_ok (snd (overlay_boxes center_form [Some (sample_pred [2])]
                "vids/clip.mp4" (1 # 100)
                (sample_args false true false "video") (sample_state 1)))
  = true
  /\ fs (fst (overlay_boxes center_form [Some (sample_pred [2])]
                "vids/clip.mp4" (1 # 100)
                (sample_args false true false "video") (sample_state 1)))
     = ∅
  /\ length (overlays (img (fst (overlay_boxes center_form
                [Some (sample_pred [2])] "vids/clip.mp4" (1 # 100)
                (sample_args false true false "video") (sample_state 1)))))
     = 1%nat.
Proof. repeat split; vm_compute; reflexivity. Qed.

(** C7, amended, in video mode: nothing is written and the box of the
    detection is drawn on the frame. *)
Lemma no_output_outside_images_mode_witness :
  mode (sample_args false true false "video") <> "images"
  /\ fs (fst (overlay_boxes center_form [Some (sample_pred [2])]
                "vids/clip.mp4" (1 # 100)
                (sample_args false true false "video") (sample_state 1)))
     = fs (sample_state 1)
  /\ Forall2 (drawn_for (sample_args false true false "video"))
       (flat_map detections_of [Some (sample_pred [2])])
       (new_overlays (sample_state 1)
          (fst (overlay_boxes center_form [Some (sample_pred [2])]
                  "vids/clip.mp4" (1 # 100)
                  (sample_args false true false "video") (sample_state 1))))
  /\ length
       (new_overlays (sample_state 1)
          (fst (overlay_boxes center_form [Some (sample_pred [2])]
                  "vids/clip.mp4" (1 # 100)
                  (sample_args false true false "video") (sample_state 1))))
     = 1%nat.
Proof.
  assert (Hm : mode (sample_args false true false "video") <> "images")
    by (simpl; discriminate).
  destruct (no_output_outside_images_mode center_form
              [Some (sample_pred [2])] "vids/clip.mp4" (1 # 100)
              (sample_args false true false "video") (sample_state 1) Hm)
    as (_ & Hfs & Hdraw & _).
  split; [exact Hm |]. split; [exact (Hfs eq_refl) |].
  split; [| vm_compute; reflexivity].
  apply (Hdraw eq_refl _ (bound_by (sample_pred [2]))).
  vm_compute. reflexivity.
Defined.

(** C8: with view_img set, a processed frame is drawn on and neither
    displayed nor followed by a keyboard poll. *)
Lemma view_img_shows_nothing :
  is_ok (snd (overlay_boxes center_form [Some (sample_pred [2])]
                "imgs/bus.jpg" (1 # 100)
                (sample_args false false true "images") (sample_state 1)))
  = true
  /\ shown (fst (overlay_boxes center_form [Some (sample_pred [2])]
                   "imgs/bus.jpg" (1 # 100)
                   (sample_args false false true "images") (sample_state 1)))
     = []
  /\ key_polls (fst (overlay_boxes center_form [Some (sample_pred [2])]
                       "imgs/bus.jpg" (1 # 100)
                       (sample_args false false true "images") (sample_state 1)))
     = 0%nat.
Proof. repeat split; vm_compute; reflexivity. Qed.

(** C8 at a frame with one detection and view_img set: the box is drawn,
    the screen is empty and no key was polled, where the contract's display
    step shows the frame and polls once. *)
Lemma view_img_draws_without_display_witness :
  view_img (sample_args false false true "images") = true
  /\ screen_untouched (sample_state 1)
       (fst (overlay_boxes center_form [Some (sample_pred [2])]
               "imgs/bus.jpg" (1 # 100)
               (sample_args false false true "images") (sample_state 1)))
  /\ length
       (overlays
          (img (fst (frame_body center_form 0 (Some (sample_pred [2]))
                       "imgs/bus.jpg" (1 # 100)
                       (sample_args false false true "images") None
                       (sample_state 1)))))
     = 1%nat
  /\ shown (fst (frame_body center_form 0 (Some (sample_pred [2]))
                   "imgs/bus.jpg" (1 # 100)
                   (sample_args false false true "images") None
                   (sample_state 1)))
     = []
  /\ shown
       (fst (spec_view_step (sample_args false false true "images")
               (fst (frame_body center_form 0 (Some (sample_pred [2]))
                       "imgs/bus.jpg" (1 # 100)
                       (sample_args false false true "images") None
                       (sample_state 1)))))
     = [img (fst (frame_body center_form 0 (Some (sample_pred [2]))
                    "imgs/bus.jpg" (1 # 100)
                    (sample_args false false true "images") None
                    (sample_state 1)))].
Proof.
  destruct (view_img_draws_without_display center_form
              [Some (sample_pred [2])] "imgs/bus.jpg" (1 # 100)
              (sample_args false false true "images") (sample_state 1))
    as (Hscreen & _ & Hframe & _).
  destruct (Hframe 0%nat (sample_pred [2]) None
              (Some (bound_by (sample_pred [2]))) (sample_state 1)
              (fst (frame_body center_form 0 (Some (sample_pred [2]))
                      "imgs/bus.jpg" (1 # 100)
                      (sample_args false false true "images") None
                      (sample_state 1))) eq_refl)
    as (_ & Hshown & _ & Hspec & _).
  { vm_compute. reflexivity. }
  split; [reflexivity |]. split; [exact Hscreen |].
  split; [vm_compute; reflexivity |].
  split; [exact Hshown | exact Hspec].
Defined.


(** C10 at the three class names of the sample file. *)
Lemma palette_one_triple_per_class_witness :
  colors (startup_args sample_ext (sample_args false true false ""))
  = [[0; 7; 14]; [21; 28; 35]; [42; 49; 56]]
  /\ length (colors (startup_args sample_ext (sample_args false true false "")))
     = length (names (startup_args sample_ext (sample_args false true false "")))
  /\ Forall2 (fun d o =>
                py_index
                  (colors (startup_args sample_ext
                             (sample_args false true false "")))
                  (snd d) = Ok (o_color o))
       (zip3 (map round_box (boxes (sample_pred [2; 0])))
          (scores (sample_pred [2; 0])) (labels (sample_pred [2; 0])))
       (new_overlays (sample_state 1)
          (fst (frame_body center_form 0 (Some (sample_pred [2; 0]))
                  "imgs/bus.jpg" (1 # 100)
                  (startup_args sample_ext (sample_args false true false ""))
                  None (sample_state 1)))).
Proof.
  destruct (palette_one_triple_per_class center_form sample_ext
              (sample_args false true false "")) as (Hlen & _ & Hcol).
  split; [reflexivity |]. split; [exact Hlen |].
  eapply (Hcol 0%nat (sample_pred [2; 0]) "imgs/bus.jpg" (1 # 100) None);
    [reflexivity |].
  vm_compute. reflexivity.
Defined.

(** * Further properties *)

(** ** get_coco_names (lines 19-24) *)

Lemma universal_newlines_cons (c : ascii) (r : string) :
  universal_newlines (String c r)
  = if Ascii.eqb c "013"%char then
      match r with
      | String d _ =>
          if Ascii.eqb d "010"%char then universal_newlines r
          else String "010"%char (universal_newlines r)
      | EmptyString => String "010"%char EmptyString
      end
    else String c (universal_newlines r).
Proof. reflexivity. Qed.

Lemma line_ends_cons (c : ascii) (r : string) :
  line_ends (String c r)
  = if Ascii.eqb c "013"%char then
      match r with
      | String d _ =>
          if Ascii.eqb d "010"%char then line_ends r else S (line_ends r)
      | EmptyString => 1%nat
      end
    else if Ascii.eqb c "010"%char then S (line_ends r)
    else line_ends r.
Proof. reflexivity. Qed.

Lemma unterminated_cons (c : ascii) (r : string) :
  unterminated (String c r)
  = match r with
    | EmptyString =>
        (negb (Ascii.eqb c "010"%char) && negb (Ascii.eqb c "013"%char))%bool
    | _ => unterminated r
    end.
Proof. reflexivity. Qed.

Lemma universal_newlines_empty (s : string) :
  universal_newlines s = EmptyString -> s = EmptyString.
Proof.
  induction s as [| c r IH]; [reflexivity |].
  rewrite universal_newlines_cons.
  destruct (Ascii.eqb c "013"%char); [| discriminate].
  destruct r as [| d r']; [discriminate |].
  destruct (Ascii.eqb d "010"%char); [| discriminate].
  intros H. apply IH in H. discriminate H.
Qed.

Lemma universal_newlines_no_cr (s : string) :
  has_char "013" (universal_newlines s) = false.
Proof.
  induction s as [| c r IH]; [reflexivity |].
  rewrite universal_newlines_cons.
  destruct (Ascii.eqb c "013"%char) eqn:Hc.
  - destruct r as [| d r']; [reflexivity |].
    destruct (Ascii.eqb d "010"%char); [exact IH |].
    cbn [has_char]. now rewrite IH.
  - cbn [has_char]. now rewrite Hc, IH.
Qed.

Lemma count_nl_universal (s : string) :
  count_nl (universal_newlines s) = line_ends s.
Proof.
  induction s as [| c r IH]; [reflexivity |].
  rewrite universal_newlines_cons, line_ends_cons.
  destruct (Ascii.eqb c "013"%char) eqn:Hc.
  - destruct r as [| d r']; [reflexivity |].
    destruct (Ascii.eqb d "010"%char); [exact IH |].
    cbn [count_nl]. now rewrite IH.
  - cbn [count_nl]. rewrite IH.
    now destruct (Ascii.eqb c "010"%char).
Qed.

Lemma unterminated_universal (s : string) :
  unterminated (universal_newlines s) = unterminated s.
Proof.
  induction s as [| c r IH]; [reflexivity |].
  rewrite universal_newlines_cons, (unterminated_cons c r).
  destruct (Ascii.eqb c "013"%char) eqn:Hc.
  - destruct r as [| d r'].
    + cbn. now rewrite andb_false_r.
    + destruct (Ascii.eqb d "010"%char); [exact IH |].
      rewrite unterminated_cons.
      destruct (universal_newlines (String d r')) eqn:Hu; [| exact IH].
      apply universal_newlines_empty in Hu. discriminate Hu.
  - rewrite unterminated_cons.
    destruct r as [| d r']; [cbn; now rewrite Hc |].
    destruct (universal_newlines (String d r')) eqn:Hu; [| exact IH].
    apply universal_newlines_empty in Hu. discriminate Hu.
Qed.

Lemma has_char_lstrip (a : ascii) (s : string) :
  has_char a s = false -> has_char a (lstrip s) = false.
Proof.
  induction s as [| c r IH]; [reflexivity |].
  intros H. pose proof H as H'. cbn [has_char] in H'.
  apply orb_false_iff in H'. destruct H' as [_ Hr].
  cbn [lstrip]. destruct (is_space c); [now apply IH | exact H].
Qed.

Lemma has_char_rstrip (a : ascii) (s : string) :
  has_char a s = false -> has_char a (rstrip s) = false.
Proof.
  induction s as [| c r IH]; [reflexivity |].
  cbn [has_char]. intros H. apply orb_false_iff in H. destruct H as [Hc Hr].
  cbn [rstrip]. specialize (IH Hr).
  destruct (rstrip r) as [| d r'].
  - destruct (is_space c); [reflexivity |]. cbn [has_char]. now rewrite Hc.
  - cbn [has_char] in *. now rewrite Hc, IH.
Qed.

Lemma has_char_strip (a : ascii) (s : string) :
  has_char a s = false -> has_char a (strip s) = false.
Proof. intros H. unfold strip. now apply has_char_rstrip, has_char_lstrip. Qed.

Lemma rstrip_snoc_space (s : string) (c : ascii) :
  is_space c = true -> rstrip (s +:+ String c EmptyString) = rstrip s.
Proof.
  intros Hc. induction s as [| d r IH]; simpl.
  - now rewrite Hc.
  - now rewrite IH.
Qed.

Lemma strip_line_nl (b : string) :
  strip (b +:+ String "010"%char EmptyString) = strip b.
Proof.
  unfold strip. induction b as [| c r IH]; simpl; [reflexivity |].
  destruct (is_space c); [exact IH |].
  change (String c (r +:+ String "010"%char EmptyString))
    with (String c r +:+ String "010"%char EmptyString).
  now apply rstrip_snoc_space.
Qed.

Lemma lstrip_head (s : string) (c : ascii) :
  first_char (lstrip s) = Some c -> is_space c = false.
Proof.
  induction s as [| d r IH]; [discriminate |]. cbn [lstrip].
  destruct (is_space d) eqn:Hd; [exact IH |].
  cbn. now intros [= <-].
Qed.

Lemma rstrip_first (s : string) (c : ascii) :
  first_char (rstrip s) = Some c -> first_char s = Some c.
Proof.
  destruct s as [| d r]; [discriminate |]. cbn [rstrip].
  destruct (rstrip r); [destruct (is_space d) |]; cbn; congruence.
Qed.

Lemma rstrip_last (s : string) (c : ascii) :
  last_char (rstrip s) = Some c -> is_space c = false.
Proof.
  induction s as [| d r IH]; [discriminate |]. cbn [rstrip].
  destruct (rstrip r) as [| e r'] eqn:Hr.
  - destruct (is_space d) eqn:Hd; [discriminate |].
    cbn. now intros [= <-].
  - exact IH.
Qed.

Lemma lstrip_fixed (s : string) :
  (forall c, first_char s = Some c -> is_space c = false) -> lstrip s = s.
Proof.
  destruct s as [| c r]; [reflexivity |]. intros H. cbn [lstrip].
  now rewrite (H c eq_refl).
Qed.

Lemma rstrip_fixed (s : string) :
  (forall c, last_char s = Some c -> is_space c = false) -> rstrip s = s.
Proof.
  induction s as [| c r IH]; [reflexivity |]. intros H. cbn [rstrip].
  destruct r as [| d r'].
  - cbn. now rewrite (H c eq_refl).
  - rewrite IH by exact H. reflexivity.
Qed.

Lemma strip_clean (n : string) : clean_name n -> strip n = n.
Proof.
  intros (_ & _ & Hf & Hl). unfold strip.
  rewrite (lstrip_fixed n Hf). now apply rstrip_fixed.
Qed.

Lemma file_lines_chars (a : ascii) (s : string) :
  has_char a s = false -> Forall (fun l => has_char a l = false) (file_lines s).
Proof.
  induction s as [| c r IH]; [constructor |].
  cbn [has_char file_lines]. intros H. apply orb_false_iff in H.
  destruct H as [Hc Hr]. specialize (IH Hr).
  destruct (Ascii.eqb c "010"%char).
  - constructor; [cbn; now rewrite Hc | exact IH].
  - destruct (file_lines r) as [| h t].
    + constructor; [cbn; now rewrite Hc | constructor].
    + inversion IH as [| ? ? Hh Ht]; subst.
      constructor; [cbn [has_char]; now rewrite Hc, Hh | exact Ht].
Qed.

Lemma file_lines_shape (s : string) :
  Forall (fun l => exists b, has_char "010" b = false
                    /\ (l = b \/ l = b +:+ String "010"%char EmptyString))
    (file_lines s).
Proof.
  induction s as [| c r IH]; [constructor |]. cbn [file_lines].
  destruct (Ascii.eqb c "010"%char) eqn:Hc.
  - apply Ascii.eqb_eq in Hc. subst c. constructor; [| exact IH].
    exists EmptyString. split; [reflexivity | now right].
  - destruct (file_lines r) as [| h t].
    + constructor; [| constructor].
      exists (String c EmptyString). cbn. rewrite Hc.
      split; [reflexivity | now left].
    + inversion IH as [| ? ? (b & Hb & Hh) Ht]; subst. constructor; [| exact Ht].
      exists (String c b). cbn [has_char]. rewrite Hc, Hb.
      split; [reflexivity |].
      destruct Hh as [-> | ->]; [now left | now right].
Qed.

(** Every class name read has no line feed and no carriage return in it
    and no whitespace at either end: [strip] leaves it as it is. *)
Theorem names_are_stripped (contents nm : string) :
  In nm (get_coco_names contents) ->
  clean_name nm /\ strip nm = nm.
Proof.
  unfold get_coco_names. intros Hin. apply in_map_iff in Hin.
  destruct Hin as (l & <- & Hl).
  pose proof (file_lines_shape (universal_newlines contents)) as Hshape.
  pose proof (file_lines_chars "013" _ (universal_newlines_no_cr contents))
    as Hcr.
  rewrite List.Forall_forall in Hshape, Hcr.
  destruct (Hshape l Hl) as (b & Hb & Hlb). specialize (Hcr l Hl).
  assert (Hstrip : strip l = strip b)
    by (destruct Hlb as [-> | ->]; [reflexivity | apply strip_line_nl]).
  assert (Hclean : clean_name (strip l));
    [| split; [exact Hclean | now apply strip_clean]].
  repeat split.
  - rewrite Hstrip. now apply has_char_strip.
  - now apply has_char_strip.
  - intros c Hc. unfold strip in Hc. apply rstrip_first in Hc.
    now apply lstrip_head in Hc.
  - intros c Hc. unfold strip in Hc. now apply rstrip_last in Hc.
Qed.

Lemma file_lines_nonempty (c : ascii) (r : string) :
  file_lines (String c r) <> [].
Proof.
  simpl. destruct (Ascii.eqb c "010"%char); [discriminate |].
  destruct (file_lines r); discriminate.
Qed.

Lemma file_lines_length (t : string) :
  has_char "013" t = false ->
  length (file_lines t)
  = (count_nl t + (if unterminated t then 1 else 0))%nat.
Proof.
  induction t as [| c r IH]; [reflexivity |].
  cbn [has_char]. intros H. apply orb_false_iff in H. destruct H as [Hcr Hr].
  specialize (IH Hr). rewrite unterminated_cons. cbn [file_lines count_nl].
  destruct (Ascii.eqb c "010"%char) eqn:Hc.
  - cbn [length]. rewrite IH. destruct r; cbn; lia.
  - destruct r as [| d r'].
    + cbn. now rewrite Hcr.
    + destruct (file_lines (String d r')) as [| h t] eqn:Hf;
        [now apply file_lines_nonempty in Hf |].
      cbn [length] in *. lia.
Qed.

(** The table has one entry per line of the file as stored, whichever of
    the three line ends it uses, a last line without line end included; a
    blank line gives the empty name. *)
Theorem one_name_per_line (contents : string) :
  length (get_coco_names contents)
  = (line_ends contents + (if unterminated contents then 1 else 0))%nat.
Proof.
  unfold get_coco_names. rewrite length_map.
  rewrite file_lines_length by apply universal_newlines_no_cr.
  now rewrite count_nl_universal, unterminated_universal.
Qed.

Lemma file_lines_line (n rest : string) :
  has_char "010" n = false ->
  file_lines (n +:+ String "010"%char rest)
  = (n +:+ String "010"%char EmptyString) :: file_lines rest.
Proof.
  induction n as [| c r IH]; simpl; [reflexivity |].
  intros H. apply orb_false_iff in H.
  destruct H as [Hc Hr]. now rewrite Hc, (IH Hr).
Qed.

Lemma universal_newlines_name (n rest : string) :
  has_char "013" n = false ->
  universal_newlines (n +:+ rest) = n +:+ universal_newlines rest.
Proof.
  induction n as [| c r IH]; [reflexivity |].
  cbn [has_char]. intros H. apply orb_false_iff in H.
  destruct H as [Hc Hr].
  change (String c r +:+ rest) with (String c (r +:+ rest)).
  rewrite universal_newlines_cons, Hc.
  now rewrite (IH Hr).
Qed.

Lemma universal_newlines_eol (eol rest : string) :
  line_end eol ->
  (eol = String "013"%char EmptyString -> first_char rest <> Some "010"%char) ->
  universal_newlines (eol +:+ rest)
  = String "010"%char (universal_newlines rest).
Proof.
  intros [-> | [-> | ->]] Hrest; [reflexivity | reflexivity |].
  change (String "013" EmptyString +:+ rest) with (String "013"%char rest).
  rewrite universal_newlines_cons.
  change (Ascii.eqb "013" "013") with true. cbv iota.
  destruct rest as [| d r]; [reflexivity |].
  destruct (Ascii.eqb d "010"%char) eqn:Hd; [| reflexivity].
  apply Ascii.eqb_eq in Hd. subst d. now destruct (Hrest eq_refl).
Qed.

Lemma names_file_first (l : list string) :
  (forall n, In n l -> clean_name n) ->
  first_char (names_file (String "013"%char EmptyString) l)
  <> Some "010"%char.
Proof.
  destruct l as [| n r]; [discriminate |]. intros Hl.
  destruct (Hl n (or_introl eq_refl)) as (Hlf & _).
  cbn [names_file]. destruct n as [| c n']; [discriminate |].
  cbn [has_char] in Hlf. apply orb_false_iff in Hlf. destruct Hlf as [Hc _].
  cbn. intros [= ->]. discriminate Hc.
Qed.

Lemma universal_newlines_names_file (eol : string) (l : list string) :
  line_end eol ->
  (forall n, In n l -> clean_name n) ->
  universal_newlines (names_file eol l)
  = names_file (String "010"%char EmptyString) l.
Proof.
  intros Heol. induction l as [| n r IH]; intros Hl; [reflexivity |].
  destruct (Hl n (or_introl eq_refl)) as (_ & Hcr & _).
  assert (Hr : forall m, In m r -> clean_name m)
    by (intros m Hm; apply Hl; now right).
  cbn [names_file].
  rewrite (universal_newlines_name _ _ Hcr), universal_newlines_eol;
    [now rewrite (IH Hr) | exact Heol |].
  intros ->. now apply names_file_first.
Qed.

(** Round trip: names without line ends and without whitespace at their
    ends, stored one per line with any of the three line ends, are read
    back as they were, in order. *)
Theorem names_file_round_trip (eol : string) (l : list string) :
  line_end eol ->
  (forall n, In n l -> clean_name n) ->
  get_coco_names (names_file eol l) = l.
Proof.
  intros Heol Hl. unfold get_coco_names.
  rewrite (universal_newlines_names_file eol l Heol Hl).
  induction l as [| n r IH]; [reflexivity |].
  destruct (Hl n (or_introl eq_refl)) as (Hlf & Hrest).
  cbn [names_file].
  change (n +:+ String "010" EmptyString
            +:+ names_file (String "010" EmptyString) r)
    with (n +:+ String "010"%char (names_file (String "010" EmptyString) r)).
  rewrite (file_lines_line _ _ Hlf). cbn [map].
  rewrite strip_line_nl, strip_clean by exact (Hl n (or_introl eq_refl)).
  rewrite IH; [reflexivity |].
  intros m Hm. apply Hl. now right.
Qed.

(** ** The counts of the class summary (lines 41-43) *)

Lemma count_label_cons (c x : Z) (l : list Z) :
  count_label c (x :: l)
  = ((if decide (x = c) then 1 else 0) + count_label c l)%nat.
Proof.
  unfold count_label. rewrite filter_cons. now destruct (decide (x = c)).
Qed.

Lemma indicator_sum (x : Z) (cs : list Z) :
  List.NoDup cs -> In x cs ->
  sum_list (map (fun c => if decide (x = c) then 1%nat else 0%nat) cs) = 1%nat.
Proof.
  induction 1 as [| c r Hnin Hnd IH]; intros Hin; [destruct Hin |].
  simpl. destruct (decide (x = c)) as [-> | Hne].
  - f_equal. clear IH Hnd Hin. induction r as [| d r IH]; [reflexivity |].
    simpl. destruct (decide (c = d)) as [-> | _].
    + exfalso. apply Hnin. now left.
    + apply IH. intros H. apply Hnin. now right.
  - destruct Hin as [-> | Hin]; [congruence | now apply IH].
Qed.

Lemma counts_sum_over (cs l : list Z) :
  List.NoDup cs -> (forall x, In x l -> In x cs) ->
  sum_list (map (fun c => count_label c l) cs) = length l.
Proof.
  intros Hnd. induction l as [| x l IH]; intros Hin.
  - clear. induction cs as [| c r IHc]; [reflexivity | exact IHc].
  - assert (Hs : sum_list (map (fun c => count_label c (x :: l)) cs)
                 = (sum_list (map (fun c => if decide (x = c) then 1%nat
                                            else 0%nat) cs)
                    + sum_list (map (fun c => count_label c l) cs))%nat).
    { clear. induction cs as [| c r IHc]; [reflexivity |].
      simpl map. simpl sum_list. rewrite IHc, count_label_cons. lia. }
    rewrite Hs, indicator_sum, IH; [reflexivity | | exact Hnd |].
    + intros y Hy. apply Hin. now right.
    + apply Hin. now left.
Qed.

Lemma count_label_pos (c : Z) (l : list Z) :
  In c l -> (0 < count_label c l)%nat.
Proof.
  induction l as [| x l IH]; [intros [] |].
  rewrite count_label_cons. intros [-> | Hin].
  - destruct (decide (c = c)); [lia | congruence].
  - apply IH in Hin. lia.
Qed.

(** The counts the class summary prints add up to the number of labels of
    the frame, and every class it lists has a count of at least one. *)
Theorem summary_counts_add_up (lbls : list Z) :
  sum_list (map (fun c => count_label c lbls) (unique lbls)) = length lbls
  /\ Forall (fun c => (0 < count_label c lbls)%nat) (unique lbls).
Proof.
  split.
  - apply counts_sum_over; [apply unique_NoDup | intros x; apply unique_In].
  - apply List.Forall_forall. intros c Hc. apply count_label_pos.
    now apply unique_In.
Qed.

(** ** The names of the output files (lines 32, 33, 50 and 62) *)

Lemma components_nonempty (s : string) : components s <> [].
Proof.
  induction s as [| c r IH]; simpl; [discriminate |].
  destruct (Ascii.eqb c "/"); [discriminate |].
  destruct (components r); [congruence | discriminate].
Qed.

Lemma components_app_slash (a n : string) :
  components (a +:+ String "/" n) = components a ++ components n.
Proof.
  induction a as [| c r IH]; simpl; [reflexivity |].
  rewrite IH. destruct (Ascii.eqb c "/"); [reflexivity |].
  pose proof (components_nonempty r) as Hne.
  destruct (components r) as [| h tl]; [congruence | reflexivity].
Qed.

Lemma components_no_slash (n : string) :
  has_char "/" n = false -> components n = [n] \/ n = "".
Proof.
  induction n as [| c r IH]; simpl; [now right |].
  destruct (Ascii.eqb c "/"); [discriminate |]. simpl. intros H.
  destruct (IH H) as [-> | ->]; now left.
Qed.

Lemma components_plain (n : string) : plain_name n -> components n = [n].
Proof.
  intros (Hne & _ & Hs). destruct (components_no_slash n Hs); congruence.
Qed.

Lemma keep_plain (n : string) : plain_name n -> keep_component n = true.
Proof.
  intros (H1 & H2 & _). unfold keep_component.
  apply String.eqb_neq in H1, H2. now rewrite H1, H2.
Qed.

Lemma path_name_plain (n : string) : plain_name n -> path_name (Path n) = n.
Proof.
  intros Hn. unfold path_name, Path. simpl.
  rewrite (components_plain n Hn). rewrite filter_cons, filter_nil.
  destruct (decide (keep_component n = true)) as [_ | Hk]; [reflexivity |].
  now rewrite keep_plain in Hk.
Qed.

Lemma path_name_in_dir (d n : string) :
  plain_name n -> path_name (Path (d +:+ "/" +:+ n)) = n.
Proof.
  intros Hn. unfold path_name, Path. simpl parts.
  change ("/" +:+ n) with (String "/" n).
  rewrite components_app_slash, (components_plain n Hn), filter_app.
  rewrite (filter_cons _ n), filter_nil.
  destruct (decide (keep_component n = true)) as [_ | Hk];
    [apply List.last_last | now rewrite keep_plain in Hk].
Qed.

Lemma has_char_app (a : ascii) (x y : string) :
  has_char a (x +:+ y) = (has_char a x || has_char a y)%bool.
Proof.
  induction x as [| c r IH]; simpl; [reflexivity |].
  rewrite IH. now rewrite orb_assoc.
Qed.

Lemma rsplit_dot_none (e : string) :
  has_char "." e = false -> rsplit_dot e = None.
Proof.
  induction e as [| c r IH]; simpl; [reflexivity |].
  destruct (Ascii.eqb c "."); [discriminate |]. simpl.
  intros H. now rewrite IH.
Qed.

Lemma rsplit_dot_suffix (n e : string) :
  has_char "." e = false -> rsplit_dot (n +:+ "." +:+ e) = Some (n, e).
Proof.
  intros He. induction n as [| c r IH]; simpl.
  - now rewrite rsplit_dot_none.
  - simpl in IH. now rewrite IH.
Qed.

Lemma stem_of_suffix (n e : string) :
  n <> "" -> plain_suffix e -> stem_of (n +:+ "." +:+ e) = n.
Proof.
  intros Hn (He & _ & Hd). unfold stem_of.
  rewrite (rsplit_dot_suffix n e Hd).
  apply String.eqb_neq in Hn, He. now rewrite Hn, He.
Qed.

Lemma plain_name_suffix (n e : string) :
  n <> "" -> has_char "/" n = false -> plain_suffix e ->
  plain_name (n +:+ "." +:+ e).
Proof.
  intros Hn Hs (He & Hes & _). repeat split.
  - destruct n; [congruence | discriminate].
  - destruct n as [| c [| c' r]]; [congruence | | discriminate].
    destruct e; [congruence | discriminate].
  - rewrite has_char_app, Hs. simpl. exact Hes.
Qed.

(** The image written for a source is named by the file name of the source
    alone: sources of the same name in different directories are written
    to the same file under the output directory. *)
Theorem image_file_named_by_file_name (args : Args) (d1 d2 n : string) :
  plain_name n ->
  save_file args (d1 +:+ "/" +:+ n) = save_file args (d2 +:+ "/" +:+ n)
  /\ save_file args (d1 +:+ "/" +:+ n) = save_file args n.
Proof.
  intros Hn. unfold save_file.
  now rewrite !path_name_in_dir, path_name_plain.
Qed.

(** The label file of a source is named by the stem of its file name:
    sources that differ in their directory and in their suffix only append
    their label lines to the same text file. *)
Theorem label_file_named_by_stem (args : Args) (d1 d2 n e1 e2 : string) :
  n <> "" -> has_char "/" n = false ->
  plain_suffix e1 -> plain_suffix e2 ->
  txt_file args (d1 +:+ "/" +:+ (n +:+ "." +:+ e1))
  = txt_file args (d2 +:+ "/" +:+ (n +:+ "." +:+ e2)).
Proof.
  intros Hn Hs He1 He2. unfold txt_file, path_stem.
  rewrite !path_name_in_dir by now apply plain_name_suffix.
  now rewrite !stem_of_suffix.
Qed.

(** ** The webcam flag (lines 76-77) *)

Lemma substring_all (p : string) : substring 0 (String.length p) p = p.
Proof. induction p as [| c r IH]; simpl; [reflexivity | now rewrite IH]. Qed.

Lemma substring_suffix (s p : string) :
  substring (String.length s) (String.length p) (s +:+ p) = p.
Proof.
  induction s as [| c r IH]; simpl; [apply substring_all | exact IH].
Qed.

Lemma length_append (s p : string) :
  String.length (s +:+ p) = (String.length s + String.length p)%nat.
Proof. induction s as [| c r IH]; simpl; [reflexivity | now rewrite IH]. Qed.

Lemma endswith_append (s p : string) : endswith (s +:+ p) p = true.
Proof.
  unfold endswith. rewrite length_append.
  replace (String.length s + String.length p - String.length p)%nat
    with (String.length s) by lia.
  rewrite substring_suffix, String.eqb_refl.
  apply andb_true_iff. split; [apply Nat.leb_le; lia | reflexivity].
Qed.

(** Every source that ends in ['.txt'] and every rtsp, rtmp and http URL is
    flagged as a webcam; an https URL is not one of the accepted prefixes
    and is flagged only when it ends in ['.txt']. *)
Theorem webcam_flag_of_streams (s : string) :
  is_webcam (s +:+ ".txt") = true
  /\ is_webcam ("rtsp://" +:+ s) = true
  /\ is_webcam ("rtmp://" +:+ s) = true
  /\ is_webcam ("http://" +:+ s) = true
  /\ is_webcam ("https://" +:+ s) = endswith ("https://" +:+ s) ".txt".
Proof.
  split.
  { unfold is_webcam. rewrite endswith_append. apply orb_true_r. }
  assert (Hp : forall q r, String.prefix q (q +:+ r) = true).
  { induction q as [| c q IH]; intros r; simpl; [now destruct r |].
    destruct (ascii_dec c c); [apply IH | congruence]. }
  unfold is_webcam, startswith.
  split; [| split; [| split]].
  - rewrite (Hp "rtsp://" s). now rewrite orb_true_r.
  - rewrite (Hp "rtmp://" s). now rewrite !orb_true_r.
  - rewrite (Hp "http://" s). now rewrite !orb_true_r.
  - reflexivity.
Qed.

(** ** The label file and the image file (lines 32, 33, 50 and 62) *)


(** * Concrete runs of the further properties *)

(** A class-name file stored with carriage returns and line feeds, whose
    second line has blanks and a tab around the name. *)
Lemma names_are_stripped_witness :
  In "car"
    (get_coco_names
       ("person" +:+ String "013" (String "010" EmptyString)
        +:+ String "009" "  car " +:+ String "013" (String "010" "bus")))
  /\ clean_name "car" /\ strip "car" = "car".
Proof.
  assert (Hin : In "car"
                  (get_coco_names
                     ("person" +:+ String "013" (String "010" EmptyString)
                      +:+ String "009" "  car "
                      +:+ String "013" (String "010" "bus"))))
    by (right; left; reflexivity).
  split; [exact Hin |].
  exact (names_are_stripped _ _ Hin).
Defined.

(** Two names, one with an inner blank, stored with carriage returns
    alone, come back whole. *)
Lemma names_file_round_trip_witness :
  line_end (String "013" EmptyString)
  /\ (forall n, In n ["person"; "traffic light"] -> clean_name n)
  /\ get_coco_names
       (names_file (String "013" EmptyString) ["person"; "traffic light"])
     = ["person"; "traffic light"].
Proof.
  assert (He : line_end (String "013" EmptyString))
    by (right; right; reflexivity).
  assert (H : forall n, In n ["person"; "traffic light"] -> clean_name n).
  { intros n [<- | [<- | []]]; repeat split;
      cbn; intros c [= <-]; reflexivity. }
  split; [exact He |]. split; [exact H |].
  exact (names_file_round_trip _ _ He H).
Defined.

(** No flag set: one detection, nothing written, nothing drawn. *)
Lemma no_flags_only_prints_witness :
  save_txt (sample_args false false false "images") = false
  /\ fs (fst (overlay_boxes center_form [Some (sample_pred [2])]
                "imgs/bus.jpg" (1 # 100)
                (sample_args false false false "images") (sample_state 1)))
     = fs (sample_state 1)
  /\ img (fst (overlay_boxes center_form [Some (sample_pred [2])]
                 "imgs/bus.jpg" (1 # 100)
                 (sample_args false false false "images") (sample_state 1)))
     = img (sample_state 1).
Proof.
  destruct (no_flags_only_prints center_form [Some (sample_pred [2])]
              "imgs/bus.jpg" (1 # 100)
              (sample_args false false false "images") (sample_state 1)
              eq_refl eq_refl eq_refl) as (Hfs & Himg & _).
  split; [reflexivity |]. split; [exact Hfs | exact Himg].
Defined.

(** A prediction followed by [None]: the tensors of the first are
    returned, after two timing lines. *)
Lemma overlay_boxes_returns_last_prediction_witness :
  final_locals [Some (sample_pred [2]); None] None
  = Some (bound_by (sample_pred [2]))
  /\ exists ls,
       stdout (fst (overlay_boxes center_form [Some (sample_pred [2]); None]
                      "imgs/bus.jpg" (1 # 100)
                      (sample_args false false false "images")
                      (sample_state 1)))
       = stdout (sample_state 1) ++ ls
       /\ length ls = 2%nat.
Proof.
  destruct (overlay_boxes_returns_last_prediction center_form
              [Some (sample_pred [2]); None] "imgs/bus.jpg" (1 # 100)
              (sample_args false false false "images") (sample_state 1)
              (fst (overlay_boxes center_form [Some (sample_pred [2]); None]
                      "imgs/bus.jpg" (1 # 100)
                      (sample_args false false false "images")
                      (sample_state 1)))
              (bound_by (sample_pred [2])))
    as (Hloc & ls & Hout & Hlen & _).
  { vm_compute. reflexivity. }
  split; [exact Hloc |]. exists ls. split; [exact Hout | exact Hlen].
Defined.

(** The only prediction is [None]: the exception is that of line 64. *)
Lemma unbound_locals_when_all_skipped_witness :
  Forall skipped [@None Pred]
  /\ is_ok (snd (overlay_boxes center_form [None] "imgs/bus.jpg" (1 # 100)
                   (sample_args false false false "images") (sample_state 1)))
     = false.
Proof.
  assert (Hs : Forall skipped [@None Pred])
    by (constructor; [exact I | constructor]).
  split; [exact Hs |].
  exact (proj2 (unbound_locals_when_all_skipped center_form [None]
                  "imgs/bus.jpg" (1 # 100)
                  (sample_args false false false "images") (sample_state 1))
           Hs).
Defined.

(** A box with the coordinates (10.5, 2.5, 3.5, 1/3) is drawn at
    (10, 2, 4, 0). *)
Lemma drawn_boxes_are_rounded_witness :
  save_img (sample_args false true false "images")
  || view_img (sample_args false true false "images") = true
  /\ Forall (fun o =>
               whole_box (o_box o)
               /\ exists b,
                    In b [mkBox (21 # 2) (5 # 2) (7 # 2) (1 # 3)]
                    /\ o_box o = round_box b
                    /\ within_half_pixel b (o_box o))
       (new_overlays (sample_state 1)
          (fst (frame_body center_form 0
                  (Some (mkPred [mkBox (21 # 2) (5 # 2) (7 # 2) (1 # 3)]
                           [9 # 10] [2]))
                  "imgs/bus.jpg" (1 # 100)
                  (sample_args false true false "images") None
                  (sample_state 1)))).
Proof.
  split; [reflexivity |].
  refine (drawn_boxes_are_rounded center_form 0
            (mkPred [mkBox (21 # 2) (5 # 2) (7 # 2) (1 # 3)] [9 # 10] [2])
            "imgs/bus.jpg" (1 # 100)
            (sample_args false true false "images") None
            (Some (bound_by (mkPred [mkBox (21 # 2) (5 # 2) (7 # 2) (1 # 3)]
                               [9 # 10] [2])))
            (sample_state 1) _ eq_refl _).
  vm_compute. reflexivity.
Defined.

(** Two boxes, one score and three labels: one detection is drawn and one
    line written. *)
Lemma detections_stop_at_shortest_tensor_witness :
  txt_file (sample_args true true false "images") "imgs/bus.jpg"
  <> save_file (sample_args true true false "images") "imgs/bus.jpg"
  /\ length
       (new_overlays (sample_state 1)
          (fst (frame_body center_form 0
                  (Some (mkPred [sample_box; sample_box] [9 # 10] [2; 2; 2]))
                  "imgs/bus.jpg" (1 # 100)
                  (sample_args true true false "images") None
                  (sample_state 1))))
     = 1%nat
  /\ line_count
       (file_at
          (fst (frame_body center_form 0
                  (Some (mkPred [sample_box; sample_box] [9 # 10] [2; 2; 2]))
                  "imgs/bus.jpg" (1 # 100)
                  (sample_args true true false "images") None
                  (sample_state 1)))
          (txt_file (sample_args true true false "images") "imgs/bus.jpg"))
     = 1%nat.
Proof.
  assert (Hne : txt_file (sample_args true true false "images") "imgs/bus.jpg"
                <> save_file (sample_args true true false "images")
                     "imgs/bus.jpg")
    by (vm_compute; discriminate).
  destruct (detections_stop_at_shortest_tensor center_form 0
              (mkPred [sample_box; sample_box] [9 # 10] [2; 2; 2])
              "imgs/bus.jpg" (1 # 100)
              (sample_args true true false "images") None
              (Some (bound_by (mkPred [sample_box; sample_box] [9 # 10]
                                 [2; 2; 2])))
              (sample_state 1)
              (fst (frame_body center_form 0
                      (Some (mkPred [sample_box; sample_box] [9 # 10]
                               [2; 2; 2]))
                      "imgs/bus.jpg" (1 # 100)
                      (sample_args true true false "images") None
                      (sample_state 1))))
    as [Hdraw Hline].
  { vm_compute. reflexivity. }
  split; [exact Hne |].
  split; [exact (Hdraw eq_refl) | exact (Hline eq_refl Hne)].
Defined.

(** A call on one prediction with the labels 2 and 5 returns: both index
    one of the six class names. *)
Lemma overlay_boxes_returns_only_if_witness :
  labels_valid (names (sample_args true true false "images"))
    [Some (sample_pred [2; 5])]
  /\ exists p,
       In (Some p) [Some (sample_pred [2; 5])]
       /\ bound_by (sample_pred [2; 5]) = bound_by p.
Proof.
  apply (overlay_boxes_returns_only_if center_form [Some (sample_pred [2; 5])]
           "imgs/bus.jpg" (1 # 100) (sample_args true true false "images")
           (sample_state 1)
           (fst (overlay_boxes center_form [Some (sample_pred [2; 5])]
                   "imgs/bus.jpg" (1 # 100)
                   (sample_args true true false "images") (sample_state 1)))
           (bound_by (sample_pred [2; 5]))).
  vm_compute. reflexivity.
Defined.

(** A valid prediction followed by one with the label 80: the call fails
    in the state the first prediction left. *)
Lemma failure_keeps_earlier_output_witness :
  is_ok (snd (overlay_boxes center_form [Some (sample_pred [2])]
                "imgs/bus.jpg" (1 # 100)
                (sample_args true true false "images") (sample_state 1)))
  = true
  /\ ~ valid_label (names (sample_args true true false "images")) 80
  /\ overlay_boxes center_form
       [Some (sample_pred [2]); Some (sample_pred [80])] "imgs/bus.jpg"
       (1 # 100) (sample_args true true false "images") (sample_state 1)
     = (fst (overlay_boxes center_form [Some (sample_pred [2])]
               "imgs/bus.jpg" (1 # 100)
               (sample_args true true false "images") (sample_state 1)),
        Raise (IndexError "list index out of range")).
Proof.
  assert (Hok : is_ok (snd (overlay_boxes center_form [Some (sample_pred [2])]
                              "imgs/bus.jpg" (1 # 100)
                              (sample_args true true false "images")
                              (sample_state 1))) = true)
    by (vm_compute; reflexivity).
  assert (Hbad : ~ valid_label (names (sample_args true true false "images"))
                     80) by (unfold valid_label; simpl; lia).
  split; [exact Hok |]. split; [exact Hbad |].
  refine (failure_keeps_earlier_output center_form [Some (sample_pred [2])] []
            (sample_pred [80]) 80 "imgs/bus.jpg" (1 # 100)
            (sample_args true true false "images") (sample_state 1)
            (or_introl Hok) _ Hbad).
  simpl. auto.
Defined.

(** Six class names and an empty color table: the label line of the
    detection is in the file when line 55 raises. *)
Lemma label_line_survives_color_error_witness :
  ~ has_color (colors (set_colors [] (sample_args true true false "images"))) 2
  /\ exists st',
       frame_body center_form 0 (Some (mkPred [sample_box] [9 # 10] [2]))
         "imgs/bus.jpg" (1 # 100)
         (set_colors [] (sample_args true true false "images")) None
         (sample_state 1)
       = (st', Raise (IndexError "list index out of range"))
       /\ file_at st'
            (txt_file (set_colors [] (sample_args true true false "images"))
               "imgs/bus.jpg")
          = file_at (sample_state 1)
              (txt_file (set_colors [] (sample_args true true false "images"))
                 "imgs/bus.jpg")
            ++ [line_of center_form (round_box sample_box, 9 # 10, 2)]
       /\ img st' = img (sample_state 1)
       /\ stdout st' = stdout (sample_state 1).
Proof.
  assert (Hbad : ~ has_color
                     (colors (set_colors []
                                (sample_args true true false "images"))) 2)
    by (unfold has_color; simpl; lia).
  split; [exact Hbad |].
  apply (label_line_survives_color_error center_form 0 sample_box (9 # 10) 2
           [] [] [] "imgs/bus.jpg" (1 # 100)
           (set_colors [] (sample_args true true false "images")) None
           (sample_state 1) eq_refl eq_refl); [| exact Hbad].
  intros c' [<- | []]. unfold valid_label. simpl. lia.
Defined.

(** A webcam source with two predictions: two timing lines, each with its
    index. *)
Lemma timing_lines_carry_index_and_shape_witness :
  exists ls,
    stdout (fst (overlay_boxes center_form [None; Some (sample_pred [2])]
                   "0" (1 # 100)
                   (set_webcam true (sample_args false false false "stream"))
                   (sample_state 1)))
    = stdout (sample_state 1) ++ ls
    /\ length ls = 2%nat.
Proof.
  destruct (timing_lines_carry_index_and_shape center_form
              [None; Some (sample_pred [2])] "0" (1 # 100)
              (set_webcam true (sample_args false false false "stream"))
              (sample_state 1)
              (fst (overlay_boxes center_form [None; Some (sample_pred [2])]
                      "0" (1 # 100)
                      (set_webcam true
                         (sample_args false false false "stream"))
                      (sample_state 1)))
              (bound_by (sample_pred [2])))
    as (ls & Hout & Hlen & _).
  { vm_compute. reflexivity. }
  exists ls. split; [exact Hout | exact Hlen].
Defined.

(** imgs/bus.jpg and other/dir/bus.jpg are both written to
    data-bin/output/bus.jpg. *)
Lemma image_file_named_by_file_name_witness :
  plain_name "bus.jpg"
  /\ save_file (sample_args false true false "images") "imgs/bus.jpg"
     = save_file (sample_args false true false "images") "other/dir/bus.jpg".
Proof.
  assert (Hn : plain_name "bus.jpg")
    by (unfold plain_name; repeat split; discriminate).
  split; [exact Hn |].
  exact (proj1 (image_file_named_by_file_name
                  (sample_args false true false "images") "imgs" "other/dir"
                  "bus.jpg" Hn)).
Defined.

(** imgs/bus.jpg and more/bus.png both append to data-bin/output/bus.txt. *)
Lemma label_file_named_by_stem_witness :
  plain_suffix "jpg" /\ plain_suffix "png"
  /\ txt_file (sample_args true false false "images") "imgs/bus.jpg"
     = txt_file (sample_args true false false "images") "more/bus.png".
Proof.
  assert (H1 : plain_suffix "jpg")
    by (unfold plain_suffix; repeat split; discriminate).
  assert (H2 : plain_suffix "png")
    by (unfold plain_suffix; repeat split; discriminate).
  split; [exact H1 |]. split; [exact H2 |].
  refine (label_file_named_by_stem (sample_args true false false "images")
            "imgs" "more" "bus" "jpg" "png" _ eq_refl H1 H2).
  discriminate.
Defined.

(** An empty frame source with save_txt set: [main] returns, having
    printed that results were saved. *)
Lemma main_returns_iff_no_frames_witness :
  stdout (fst (main (module_globals center_form)
                 (mkExternals "images" [] "person" (fun k => Z.of_nat k) 0 1)
                 (sample_args true false false "") (sample_state 1)))
  = [[Repr (sample_args true false false "")];
     [Lit "Results saved to "; Lit "data-bin/output"];
     [Lit "Done. ("; Num Pct3f (1 - 0); Lit "s)"]].
Proof.
  exact (proj2 (proj2 (proj2
           (main_returns_iff_no_frames center_form
              (mkExternals "images" [] "person" (fun k => Z.of_nat k) 0 1)
              (sample_args true false false "") (sample_state 1))))
           eq_refl).
Defined.

(** A file of an earlier run, data-bin/output/old.txt, is not touched by
    the run over imgs/bus.jpg. *)
Lemma overlay_boxes_touches_two_files_witness :
  "data-bin/output/old.txt"
  <> txt_file (sample_args true true false "images") "imgs/bus.jpg"
  /\ "data-bin/output/old.txt"
     <> save_file (sample_args true true false "images") "imgs/bus.jpg"
  /\ fs (fst (overlay_boxes center_form [Some (sample_pred [2])]
                "imgs/bus.jpg" (1 # 100)
                (sample_args true true false "images")
                (set_fs (<["data-bin/output/old.txt" := [TextData []]]> ∅)
                   (sample_state 1))))
       !! "data-bin/output/old.txt"
     = Some [TextData []].
Proof.
  assert (H1 : "data-bin/output/old.txt"
               <> txt_file (sample_args true true false "images")
                    "imgs/bus.jpg") by (vm_compute; discriminate).
  assert (H2 : "data-bin/output/old.txt"
               <> save_file (sample_args true true false "images")
                    "imgs/bus.jpg") by (vm_compute; discriminate).
  split; [exact H1 |]. split; [exact H2 |].
  rewrite (overlay_boxes_touches_two_files center_form
             [Some (sample_pred [2])] "imgs/bus.jpg" (1 # 100)
             (sample_args true true false "images")
             (set_fs (<["data-bin/output/old.txt" := [TextData []]]> ∅)
                (sample_state 1))
             "data-bin/output/old.txt" H1 H2).
  vm_compute. reflexivity.
Defined.

